(** * Virtual green-screen filter: provider switching and the frame pipeline

    A shallow embedding of [source/filters/filter-virtual-greenscreen.cpp]
    (the instance class [virtual_greenscreen_instance] and the part of the
    factory it calls), with theorems about the provider life cycle, the
    switch task and the dirty-flag protocol of the render path.

    Conventions.
    - The object, the thread pool, the settings the host stores for the
      source and the observable calls made so far form one [world]; the
      methods are computations in a small state/exception monad [M].
    - A C++ exception that leaves a function keeps the writes made before it
      was thrown, so [Throw] carries the world, as [Ok] does. What is thrown
      is a [std::exception] or something else; the two handlers of the file
      that name [std::exception] take the first only.
    - An exception that leaves a destructor, or a function that is
      [noexcept], ends the program ([std::terminate]): [Terminate].
    - Everything the file calls but does not define (the host, the NVIDIA
      adapter, the factory's availability flag) is an [env]: one answer per
      external call, chosen freely for each method call.
    - Threads interleave at the grain of the lock: a call by the host
      ([update], [video_tick], [video_render]) is one step, and the switch
      task is two, its first statement, which runs before the task takes
      [_provider_lock], and the part that runs with the lock held. *)

From Stdlib Require Import String ZArith NArith Lia.
From stdpp Require Import base option numbers strings list.

(** ** Data *)

(** [virtual_greenscreen_provider]. The enumeration is declared in the
    header; its enumerators are the cases of [cstring] (lines 73-79). A
    value of the type need not be one of them: line 175 casts whatever
    integer is stored, and [Unlisted v] is such a value [v] that is no
    enumerator, the [default] case of line 80. *)
Inductive virtual_greenscreen_provider : Type :=
| INVALID
| AUTOMATIC
| NVIDIA_GREENSCREEN
| Unlisted (v : Z).

#[global] Instance virtual_greenscreen_provider_eq_dec :
  EqDecision virtual_greenscreen_provider.
Proof. solve_decision. Defined.

(** [std::exception]: what the handler of the switch task takes
    ([catch (std::exception const& ex)], line 453) and [ex.what()] prints. *)
Record exn : Type := std_exception { what : string }.

(** What a [throw] throws and a [catch] clause receives:
    [catch (std::exception const&)] takes the first kind only, [catch (...)]
    takes both. *)
Inductive thrown : Type :=
| Std (ex : exn)
| Other.

(** A handle on a GPU texture ([std::shared_ptr<gs::texture>]). *)
Definition texture : Type := nat.

(** The settings object of the source, read through the two keys the file
    uses. [data_Provider] is
    [static_cast<virtual_greenscreen_provider>(obs_data_get_int(data,
    ST_KEY_PROVIDER))] (line 175): the stored integer as a value of the
    enumeration, an enumerator or not.
    [data_NVIDIA_Greenscreen_Mode] is the 64-bit integer
    [obs_data_get_int(data, ST_KEY_NVIDIA_GREENSCREEN_MODE)] (line 513),
    before its cast. *)
Record obs_data : Type := {
  data_Provider : virtual_greenscreen_provider;
  data_NVIDIA_Greenscreen_Mode : Z;
}.

(** [static_cast<::streamfx::nvidia::vfx::greenscreen_mode>(v)] for the
    64-bit [v] that [obs_data_get_int] returns (line 513). The enumeration
    is declared in the adapter's header; its values are [int]s, 32 bits
    wide, and the conversion keeps the low 32 bits of [v], read in two's
    complement. *)
Definition greenscreen_mode_cast (v : Z) : Z :=
  ((v + 2 ^ 31) mod 2 ^ 32 - 2 ^ 31)%Z.

(** The compiled effect file, seen through what [video_render] asks of it:
    which of the four parameters exist, and how many passes
    [gs_effect_loop] makes over the technique DrawAlphaThreshold. *)
Record effect : Type := {
  has_InputA : bool;
  has_InputB : bool;
  has_Threshold : bool;
  has_ThresholdRange : bool;
  passes_DrawAlphaThreshold : nat;
}.

(** A loaded NVIDIA adapter ([::streamfx::nvidia::vfx::greenscreen]); the
    mode is the argument of the last successful [set_mode]. *)
Record greenscreen : Type := {
  fx_mode : option Z;
}.

(** Life of a task handed to [streamfx::threadpool()]. *)
Inductive task_status : Type :=
| Queued      (* pushed, not picked up by a worker *)
| Running     (* a worker has entered task_switch_provider *)
| Completed   (* task_switch_provider has ended *)
| Dequeued.   (* popped before a worker picked it up *)

#[global] Instance task_status_eq_dec : EqDecision task_status.
Proof. solve_decision. Defined.

(** A pool entry: the [switch_provider_data_t] it was pushed with and its
    status. *)
Record task : Type := {
  spd_provider : virtual_greenscreen_provider;
  status : task_status;
}.

(** The data members of [virtual_greenscreen_instance] the methods read or
    write. [_provider_task] is the index of the task in the pool
    (the shared pointer), [None] when the pointer is empty. *)
#[projections(primitive)]
Record virtual_greenscreen_instance : Type := {
  _size : N * N;
  _provider : virtual_greenscreen_provider;
  _provider_ui : virtual_greenscreen_provider;
  _provider_ready : bool;
  _provider_task : option nat;
  _effect : option effect;
  _output_color : texture;
  _output_alpha : texture;
  _dirty : bool;
  _nvidia_fx : option greenscreen;
}.

(** Calls that leave the object, in the order they are made. *)
Inductive event : Type :=
| LogInfo_switching (from to : virtual_greenscreen_provider)   (* line 383 *)
| LogInfo_switched (from to : virtual_greenscreen_provider)    (* line 448 *)
| LogError_switch (msg : string)                               (* line 455 *)
| LogError_effect                                              (* line 117 *)
| Nv_load                                  (* nvvfxgs_load() is called *)
| Nv_unload                                (* nvvfxgs_unload() is called *)
| Fx_construct                             (* the adapter's constructor runs *)
| Fx_destruct                              (* the adapter's destructor runs *)
| Nv_set_mode (mode : Z)                   (* _nvidia_fx->set_mode(mode) *)
| Nv_size (size : N * N)                   (* _nvidia_fx->size(_size) *)
| Nv_process (input : texture)             (* _nvidia_fx->process(input) *)
| Skip_video_filter                        (* obs_source_skip_video_filter *)
| Process_filter_begin (ok : bool)         (* obs_source_process_filter_begin *)
| Input_render (size : N * N)              (* _input->render(w, h) *)
| Process_filter_end                       (* obs_source_process_filter_end *)
| Set_texture (param : string) (t : texture)
| Set_float (param : string) (millionths : Z)
| Draw_sprite (size : N * N)
| Threadpool_push (id : nat)
| Threadpool_pop (id : nat)
| Await_completion (id : nat).

#[global] Instance event_eq_dec : EqDecision event.
Proof. solve_decision. Defined.

#[projections(primitive)]
Record world : Type := {
  self : virtual_greenscreen_instance;
  threadpool : list task;
  settings : obs_data;            (* obs_source_get_settings(_self) *)
  trace : list event;
}.

(** The answers of the outside for one method call. *)
Record env : Type := {
  (* host *)
  filter_target : bool;           (* obs_filter_get_target(_self) != nullptr *)
  filter_parent : bool;           (* obs_filter_get_parent(_self) != nullptr *)
  base_width : N;                 (* obs_source_get_base_width(target) *)
  base_height : N;                (* obs_source_get_base_height(target) *)
  process_filter_begin : bool;    (* obs_source_process_filter_begin(...) *)
  input_texture : texture;        (* _input->get_texture() *)
  effect_file : option effect;    (* gs::effect(file): None when it throws *)
  (* factory *)
  _nvidia_available : bool;
  (* adapter *)
  fx_construct : option thrown;   (* Some x: the constructor throws x *)
  fx_destruct : option thrown;    (* Some x: the destructor throws x *)
  fx_set_mode : option thrown;    (* Some x: set_mode(mode) throws x *)
  fx_size : N * N -> N * N;       (* size(_size) takes _size by reference *)
  fx_process : thrown + texture;  (* process(input): throws, or the alpha mask *)
  fx_get_color : texture;
}.

(** ** The monad *)

Inductive result (A : Type) : Type :=
| Ok (a : A) (w : world)
| Throw (x : thrown) (w : world)
| Hang                            (* blocks forever *)
| Fault                           (* dereferences an empty pointer *)
| Terminate.                      (* std::terminate is called *)
Arguments Ok {A} a w.
Arguments Throw {A} x w.
Arguments Hang {A}.
Arguments Fault {A}.
Arguments Terminate {A}.

Definition M (A : Type) : Type := world -> result A.

Definition ret {A} (a : A) : M A := fun w => Ok a w.

Definition bind {A B} (m : M A) (k : A -> M B) : M B :=
  fun w => match m w with
           | Ok a w' => k a w'
           | Throw x w' => Throw x w'
           | Hang => Hang
           | Fault => Fault
           | Terminate => Terminate
           end.

#[global] Instance M_ret : MRet M := @ret.
#[global] Instance M_bind : MBind M := fun A B k m => bind m k.

Definition throw {A} (x : thrown) : M A := fun w => Throw x w.
Definition hang {A} : M A := fun _ => Hang.
Definition fault {A} : M A := fun _ => Fault.
Definition terminate {A} : M A := fun _ => Terminate.

(** [try { m } catch (std::exception const& ex) { h ex }]: anything else
    that is thrown passes through. *)
Definition catch_std {A} (m : M A) (h : exn -> M A) : M A :=
  fun w => match m w with
           | Throw (Std ex) w' => h ex w'
           | r => r
           end.

(** [try { m } catch (...) { h }]. *)
Definition catch_all {A} (m : M A) (h : M A) : M A :=
  fun w => match m w with
           | Throw _ w' => h w'
           | r => r
           end.

(** A body that is [noexcept], as a destructor is: an exception that would
    leave it ends the program. *)
Definition noexcept {A} (m : M A) : M A :=
  fun w => match m w with
           | Throw _ _ => Terminate
           | r => r
           end.

Definition get : M world := fun w => Ok w w.
Definition modify (f : world -> world) : M unit := fun w => Ok tt (f w).
Definition when (b : bool) (m : M unit) : M unit := if b then m else ret tt.

Definition emit (ev : event) : M unit :=
  modify (fun w => {| self := self w; threadpool := threadpool w;
                      settings := settings w; trace := trace w ++ [ev] |}).

Definition modify_self
    (f : virtual_greenscreen_instance -> virtual_greenscreen_instance) : M unit :=
  modify (fun w => {| self := f (self w); threadpool := threadpool w;
                      settings := settings w; trace := trace w |}).

Definition modify_threadpool (f : list task -> list task) : M unit :=
  modify (fun w => {| self := self w; threadpool := f (threadpool w);
                      settings := settings w; trace := trace w |}).

Definition store_settings (d : obs_data) : M unit :=
  modify (fun w => {| self := self w; threadpool := threadpool w;
                      settings := d; trace := trace w |}).

(** Assignments to the data members: the object with one member replaced,
    and the statement that replaces it. *)
Definition with_size (v : N * N)
    (i : virtual_greenscreen_instance) : virtual_greenscreen_instance :=
  {| _size := v; _provider := _provider i; _provider_ui := _provider_ui i;
     _provider_ready := _provider_ready i;
     _provider_task := _provider_task i; _effect := _effect i;
     _output_color := _output_color i; _output_alpha := _output_alpha i;
     _dirty := _dirty i; _nvidia_fx := _nvidia_fx i |}.

Definition with_provider (v : virtual_greenscreen_provider)
    (i : virtual_greenscreen_instance) : virtual_greenscreen_instance :=
  {| _size := _size i; _provider := v; _provider_ui := _provider_ui i;
     _provider_ready := _provider_ready i;
     _provider_task := _provider_task i; _effect := _effect i;
     _output_color := _output_color i; _output_alpha := _output_alpha i;
     _dirty := _dirty i; _nvidia_fx := _nvidia_fx i |}.

Definition with_provider_ui (v : virtual_greenscreen_provider)
    (i : virtual_greenscreen_instance) : virtual_greenscreen_instance :=
  {| _size := _size i; _provider := _provider i; _provider_ui := v;
     _provider_ready := _provider_ready i;
     _provider_task := _provider_task i; _effect := _effect i;
     _output_color := _output_color i; _output_alpha := _output_alpha i;
     _dirty := _dirty i; _nvidia_fx := _nvidia_fx i |}.

Definition with_provider_ready (v : bool)
    (i : virtual_greenscreen_instance) : virtual_greenscreen_instance :=
  {| _size := _size i; _provider := _provider i;
     _provider_ui := _provider_ui i; _provider_ready := v;
     _provider_task := _provider_task i; _effect := _effect i;
     _output_color := _output_color i; _output_alpha := _output_alpha i;
     _dirty := _dirty i; _nvidia_fx := _nvidia_fx i |}.

Definition with_provider_task (v : option nat)
    (i : virtual_greenscreen_instance) : virtual_greenscreen_instance :=
  {| _size := _size i; _provider := _provider i;
     _provider_ui := _provider_ui i; _provider_ready := _provider_ready i;
     _provider_task := v; _effect := _effect i;
     _output_color := _output_color i; _output_alpha := _output_alpha i;
     _dirty := _dirty i; _nvidia_fx := _nvidia_fx i |}.

Definition with_effect (v : option effect)
    (i : virtual_greenscreen_instance) : virtual_greenscreen_instance :=
  {| _size := _size i; _provider := _provider i;
     _provider_ui := _provider_ui i; _provider_ready := _provider_ready i;
     _provider_task := _provider_task i; _effect := v;
     _output_color := _output_color i; _output_alpha := _output_alpha i;
     _dirty := _dirty i; _nvidia_fx := _nvidia_fx i |}.

Definition with_output_color (v : texture)
    (i : virtual_greenscreen_instance) : virtual_greenscreen_instance :=
  {| _size := _size i; _provider := _provider i;
     _provider_ui := _provider_ui i; _provider_ready := _provider_ready i;
     _provider_task := _provider_task i; _effect := _effect i;
     _output_color := v; _output_alpha := _output_alpha i;
     _dirty := _dirty i; _nvidia_fx := _nvidia_fx i |}.

Definition with_output_alpha (v : texture)
    (i : virtual_greenscreen_instance) : virtual_greenscreen_instance :=
  {| _size := _size i; _provider := _provider i;
     _provider_ui := _provider_ui i; _provider_ready := _provider_ready i;
     _provider_task := _provider_task i; _effect := _effect i;
     _output_color := _output_color i; _output_alpha := v;
     _dirty := _dirty i; _nvidia_fx := _nvidia_fx i |}.

Definition with_dirty (v : bool)
    (i : virtual_greenscreen_instance) : virtual_greenscreen_instance :=
  {| _size := _size i; _provider := _provider i;
     _provider_ui := _provider_ui i; _provider_ready := _provider_ready i;
     _provider_task := _provider_task i; _effect := _effect i;
     _output_color := _output_color i; _output_alpha := _output_alpha i;
     _dirty := v; _nvidia_fx := _nvidia_fx i |}.

Definition with_nvidia_fx (v : option greenscreen)
    (i : virtual_greenscreen_instance) : virtual_greenscreen_instance :=
  {| _size := _size i; _provider := _provider i;
     _provider_ui := _provider_ui i; _provider_ready := _provider_ready i;
     _provider_task := _provider_task i; _effect := _effect i;
     _output_color := _output_color i; _output_alpha := _output_alpha i;
     _dirty := _dirty i; _nvidia_fx := v |}.

Definition set_size (v : N * N) : M unit :=
  modify_self (with_size v).
Definition set_provider (v : virtual_greenscreen_provider) : M unit :=
  modify_self (with_provider v).
Definition set_provider_ui (v : virtual_greenscreen_provider) : M unit :=
  modify_self (with_provider_ui v).
Definition set_provider_ready (v : bool) : M unit :=
  modify_self (with_provider_ready v).
Definition set_provider_task (v : option nat) : M unit :=
  modify_self (with_provider_task v).
Definition set_effect (v : option effect) : M unit :=
  modify_self (with_effect v).
Definition set_output_color (v : texture) : M unit :=
  modify_self (with_output_color v).
Definition set_output_alpha (v : texture) : M unit :=
  modify_self (with_output_alpha v).
Definition set_dirty (v : bool) : M unit :=
  modify_self (with_dirty v).
Definition set_nvidia_fx (v : option greenscreen) : M unit :=
  modify_self (with_nvidia_fx v).

(** ** Names of the kinds (lines 71-83) *)

(** [cstring], as far as its callers can tell: it returns a name for an
    enumerator, which goes into a log line, and throws
    [std::runtime_error] for any other value. *)
Definition Missing_Conversion_Entry : exn :=
  std_exception "Missing Conversion Entry".

Definition cstring (provider : virtual_greenscreen_provider) : M unit :=
  match provider with
  | INVALID | AUTOMATIC | NVIDIA_GREENSCREEN => ret tt
  | Unlisted _ => throw (Std Missing_Conversion_Entry)
  end.

Definition is_enumerator (provider : virtual_greenscreen_provider) : bool :=
  match provider with
  | INVALID | AUTOMATIC | NVIDIA_GREENSCREEN => true
  | Unlisted _ => false
  end.

(** ** The NVIDIA adapter (lines 459-514) *)

(** The last shared pointer to an adapter lets go of it: the adapter's
    destructor runs. The two places that do this, [reset()] and the
    assignment to the pointer, are [noexcept], and so is a destructor: an
    exception thrown in it ends the program. *)
Definition release_adapter (e : env) : M unit :=
  emit Fx_destruct;;
  match fx_destruct e with
  | Some _ => terminate
  | None => ret tt
  end.

(** [_nvidia_fx = std::make_shared<greenscreen>()]: the new adapter is built
    first, and its constructor may throw; the assignment then releases an
    adapter still held. *)
Definition nvvfxgs_load (e : env) : M unit :=
  emit Nv_load;;
  emit Fx_construct;;
  match fx_construct e with
  | Some x => throw x
  | None =>
      w ← get;
      set_nvidia_fx (Some {| fx_mode := None |});;
      match _nvidia_fx (self w) with
      | Some _ => release_adapter e
      | None => ret tt
      end
  end.

(** [_nvidia_fx.reset()]: the pointer is emptied, and the adapter it held
    is destroyed. *)
Definition nvvfxgs_unload (e : env) : M unit :=
  emit Nv_unload;;
  w ← get;
  match _nvidia_fx (self w) with
  | None => ret tt
  | Some _ =>
      set_nvidia_fx None;;
      release_adapter e
  end.

(** [_nvidia_fx->size(_size)] may change [_size], passed by reference
    ("allow the provider to restrict the size", line 231); as in the
    adapter contract it has no failure. *)
Definition nvvfxgs_size (e : env) : M unit :=
  w ← get;
  match _nvidia_fx (self w) with
  | None => ret tt
  | Some _ =>
      emit (Nv_size (_size (self w)));;
      set_size (fx_size e (_size (self w)))
  end.

(** Called as [nvvfxgs_process(_output_color, _output_alpha)]: the two
    references are the two data members. *)
Definition nvvfxgs_process (e : env) : M unit :=
  w ← get;
  match _nvidia_fx (self w) with
  | None => ret tt
  | Some _ =>
      emit (Nv_process (input_texture e));;
      match fx_process e with
      | inl x => throw x
      | inr alpha =>
          set_output_alpha alpha;;
          set_output_color (fx_get_color e)
      end
  end.

Definition nvvfxgs_update (e : env) (data : obs_data) : M unit :=
  w ← get;
  match _nvidia_fx (self w) with
  | None => ret tt
  | Some _ =>
      let mode := greenscreen_mode_cast (data_NVIDIA_Greenscreen_Mode data) in
      emit (Nv_set_mode mode);;
      match fx_set_mode e with
      | Some x => throw x
      | None => set_nvidia_fx (Some {| fx_mode := Some mode |})
      end
  end.

(** ** The thread pool *)

Definition set_status (s : task_status) (t : task) : task :=
  {| spd_provider := spd_provider t; status := s |}.

(** A task is in flight from its push until it has completed or has been
    taken out of the queue. *)
Definition in_flight (t : task) : bool :=
  match status t with
  | Queued | Running => true
  | Completed | Dequeued => false
  end.

Definition tasks_in_flight (w : world) : nat :=
  length (List.filter in_flight (threadpool w)).

(** Modelled from the spec: [util::threadpool::push], which is not part of
    this file. The task joins the queue; the handle returned identifies it. *)
Definition threadpool_push (spd : virtual_greenscreen_provider) : M nat :=
  w ← get;
  let id := length (threadpool w) in
  emit (Threadpool_push id);;
  modify_threadpool (fun q => q ++ [{| spd_provider := spd; status := Queued |}]);;
  mret id.

(** Modelled from the spec: [util::threadpool::pop]. "A queued-but-not-yet-
    started switch task can be dequeued and discarded"; a task a worker has
    picked up is left alone ("no mid-task cancellation"). *)
Definition threadpool_pop (id : nat) : M unit :=
  emit (Threadpool_pop id);;
  w ← get;
  match threadpool w !! id with
  | None => fault
  | Some t =>
      match status t with
      | Queued => modify_threadpool (fun q => <[id := set_status Dequeued t]> q)
      | _ => ret tt
      end
  end.

(** Modelled from the spec: [task::await_completion]. "A running task is
    awaited to completion rather than interrupted." Both callers hold
    [_provider_lock] (lines 142 and 371), which the task takes before it does
    anything but its first statement (line 417): a task that has not
    finished cannot finish while the caller waits. *)
Definition await_completion (id : nat) : M unit :=
  emit (Await_completion id);;
  w ← get;
  match threadpool w !! id with
  | None => fault
  | Some t =>
      match status t with
      | Queued | Running => hang
      | Completed | Dequeued => ret tt
      end
  end.

(** ** Switching the provider (lines 364-457) *)

(** Lines 387-396, and again lines 145-149 of the destructor. *)
Definition dequeue_provider_task : M unit :=
  w ← get;
  match _provider_task (self w) with
  | None => ret tt
  | Some id =>
      threadpool_pop id;;
      await_completion id;;
      set_provider_task None
  end.

(** The arguments of the log call of line 383 are evaluated before it is
    made: [cstring] throws for a kind that is no enumerator, and then
    nothing is logged and nothing below is reached. *)
Definition switch_provider (provider : virtual_greenscreen_provider) : M unit :=
  w ← get;
  if decide (provider = _provider (self w)) then ret tt
  else
    cstring (_provider (self w));;
    cstring provider;;
    emit (LogInfo_switching (_provider (self w)) provider);;
    dequeue_provider_task;;
    w ← get;
    let spd := _provider (self w) in
    set_provider provider;;
    id ← threadpool_push spd;
    set_provider_task (Some id).

(** Line 414, before the lock is taken. *)
Definition task_switch_provider_begin : M unit :=
  set_provider_ready false.

(** Lines 419-428: unload the previous provider. *)
Definition unload_previous (e : env)
    (spd : virtual_greenscreen_provider) : M unit :=
  match spd with
  | NVIDIA_GREENSCREEN => nvvfxgs_unload e
  | _ => ret tt
  end.

(** Lines 430-443: load the new provider, and hand it the settings the
    source has at this point. *)
Definition load_current (e : env) : M unit :=
  w ← get;
  match _provider (self w) with
  | NVIDIA_GREENSCREEN =>
      nvvfxgs_load e;;
      w ← get;
      nvvfxgs_update e (settings w)
  | _ => ret tt
  end.

(** Lines 445-447: the log line; its arguments are evaluated before the
    call is made. *)
Definition log_switched (spd : virtual_greenscreen_provider) : M unit :=
  w ← get;
  cstring spd;;
  cstring (_provider (self w));;
  emit (LogInfo_switched spd (_provider (self w))).

(** Lines 417-456, with the lock held. The handler of line 453 takes a
    [std::exception]; anything else leaves the task. *)
Definition task_switch_provider_locked (e : env)
    (spd : virtual_greenscreen_provider) : M unit :=
  catch_std
    (unload_previous e spd;;
     load_current e;;
     log_switched spd;;
     set_provider_ready true)
    (fun ex => emit (LogError_switch (what ex))).

Definition task_switch_provider (e : env)
    (spd : virtual_greenscreen_provider) : M unit :=
  task_switch_provider_begin;;
  task_switch_provider_locked e spd.

(** ** The factory (lines 643-665) *)

Definition provider_priority : list virtual_greenscreen_provider :=
  [NVIDIA_GREENSCREEN].

Definition is_provider_available (e : env)
    (provider : virtual_greenscreen_provider) : bool :=
  match provider with
  | NVIDIA_GREENSCREEN => _nvidia_available e
  | _ => false
  end.

Definition find_ideal_provider (e : env) : virtual_greenscreen_provider :=
  match List.find (is_provider_available e) provider_priority with
  | Some v => v
  | None => AUTOMATIC
  end.

(** ** Settings, tick and render (lines 164-362) *)

Definition update (e : env) (data : obs_data) : M unit :=
  let provider :=
    if decide (data_Provider data = AUTOMATIC) then find_ideal_provider e
    else data_Provider data in
  w ← get;
  when (bool_decide (provider ≠ _provider (self w)))
    (set_provider_ui provider;;
     switch_provider provider);;
  w ← get;
  when (_provider_ready (self w))
    (match _provider (self w) with
     | NVIDIA_GREENSCREEN => nvvfxgs_update e data
     | _ => ret tt
     end).

Definition load (e : env) (data : obs_data) : M unit := update e data.

Definition video_tick (e : env) : M unit :=
  set_size (base_width e, base_height e);;
  w ← get;
  when (filter_target e && _provider_ready (self w))
    (match _provider (self w) with
     | NVIDIA_GREENSCREEN => nvvfxgs_size e
     | _ => ret tt
     end);;
  set_dirty true.

(** How a block of [video_render] ends: with [return], or by falling
    through to the statement after it. *)
Inductive flow : Type := Returned | Continue.

(** Lines 281-319: capture the incoming frame. *)
Definition capture (e : env) : M flow :=
  emit (Process_filter_begin (process_filter_begin e));;
  if process_filter_begin e then
    w ← get;
    emit (Input_render (_size (self w)));;
    emit Process_filter_end;;
    set_output_color (input_texture e);;
    w ← get;
    set_output_alpha (_output_color (self w));;
    mret Continue
  else
    emit Skip_video_filter;;
    mret Returned.

(** Lines 321-337: process the captured input with the provider; the
    handler of line 334 is [catch (...)]. *)
Definition process (e : env) : M flow :=
  catch_all
    (w ← get;
     (match _provider (self w) with
      | NVIDIA_GREENSCREEN => nvvfxgs_process e
      | _ => ret tt
      end);;
     mret Continue)
    (emit Skip_video_filter;; mret Returned).

(** Lines 277-340. *)
Definition refresh (e : env) : M flow :=
  c ← capture e;
  match c with
  | Returned => mret Returned
  | Continue =>
      p ← process e;
      match p with
      | Returned => mret Returned
      | Continue => set_dirty false;; mret Continue
      end
  end.

Fixpoint effect_loop (passes : nat) (body : M unit) : M unit :=
  match passes with
  | O => ret tt
  | S n => body;; effect_loop n body
  end.

(** Lines 342-361: draw the result. [_effect] is dereferenced without a
    test, it is empty when the effect file failed to load (line 116). *)
Definition composite : M unit :=
  w ← get;
  match _effect (self w) with
  | None => fault
  | Some fx =>
      when (has_InputA fx) (emit (Set_texture "InputA"%string (_output_color (self w))));;
      when (has_InputB fx) (emit (Set_texture "InputB"%string (_output_alpha (self w))));;
      when (has_Threshold fx) (emit (Set_float "Threshold"%string 666667));;
      when (has_ThresholdRange fx) (emit (Set_float "ThresholdRange"%string 333333));;
      effect_loop (passes_DrawAlphaThreshold fx) (emit (Draw_sprite (_size (self w))))
  end.

(** The test of line 265; [target] falls back to [parent] on line 258, the
    sizes are those read from the filter target on lines 253-254. *)
Definition skip_filter (e : env) (w : world) : bool :=
  negb (_provider_ready (self w))
  || negb (filter_target e || filter_parent e)
  || (base_width e =? 0)%N
  || (base_height e =? 0)%N.

Definition video_render (e : env) : M unit :=
  w ← get;
  if skip_filter e w then emit Skip_video_filter
  else
    r ← (if _dirty (self w) then refresh e else mret Continue);
    match r with
    | Returned => ret tt
    | Continue => composite
    end.

(** ** Construction and destruction (lines 93-162) *)

(** The object after the member initialisers of lines 96-98, for a source
    whose settings are [stored]; 0 is the empty texture pointer. *)
Definition blank (stored : obs_data) : world :=
  {| self := {| _size := (1, 1)%N;
                _provider := INVALID;
                _provider_ui := INVALID;
                _provider_ready := false;
                _provider_task := None;
                _effect := None;
                _output_color := 0;
                _output_alpha := 0;
                _dirty := true;
                _nvidia_fx := None |};
     threadpool := [];
     settings := stored;
     trace := [] |}.

(** The body of the constructor, lines 100-134. *)
Definition constructor (e : env) (data : option obs_data) : M unit :=
  emit (Input_render (1, 1)%N);;
  set_output_color (input_texture e);;
  set_output_alpha (input_texture e);;
  (match effect_file e with
   | Some fx => set_effect (Some fx)
   | None => emit LogError_effect
   end);;
  match data with
  | Some d => load e d
  | None => ret tt
  end.

(** The members are destroyed once the body of the destructor has run:
    [_nvidia_fx] lets go of an adapter that is still held. *)
Definition destroy_members (e : env) : M unit :=
  w ← get;
  match _nvidia_fx (self w) with
  | None => ret tt
  | Some _ =>
      set_nvidia_fx None;;
      release_adapter e
  end.

(** The destructor: its body, lines 139-161, and then the members. *)
Definition destructor (e : env) : M unit :=
  noexcept
    (dequeue_provider_task;;
     w ← get;
     (match _provider (self w) with
      | NVIDIA_GREENSCREEN => nvvfxgs_unload e
      | _ => ret tt
      end);;
     destroy_members e).

(** ** The instance among its callers

    The host calls [update], [video_tick] and [video_render]; a worker of the
    pool picks up a queued task, runs its first statement, and later its
    locked part. *)
Inductive action : Type :=
| Host_update (e : env) (data : obs_data)
| Host_video_tick (e : env)
| Host_video_render (e : env)
| Worker_begin (id : nat)
| Worker_finish (e : env) (id : nat).

(** The world a call leaves behind, when it returns or throws. *)
Definition outcome {A} (r : result A) : option world :=
  match r with
  | Ok _ w | Throw _ w => Some w
  | Hang | Fault | Terminate => None
  end.

(** The pool entry of a task that has ended is marked completed. A task
    ends when [task_switch_provider] returns, and also when an exception
    leaves it: what the pool does with such an exception is not in this
    file, and taking the task as ended keeps every world in which the
    instance lives on. *)
Definition task_completed (id : nat) (t : task) (w : world) : world :=
  {| self := self w;
     threadpool := <[id := set_status Completed t]> (threadpool w);
     settings := settings w;
     trace := trace w |}.

Definition step (a : action) (w : world) : option world :=
  match a with
  | Host_update e data => outcome ((store_settings data;; update e data) w)
  | Host_video_tick e => outcome (video_tick e w)
  | Host_video_render e => outcome (video_render e w)
  | Worker_begin id =>
      match threadpool w !! id with
      | Some t =>
          if decide (status t = Queued) then
            outcome ((modify_threadpool (fun q => <[id := set_status Running t]> q);;
                      task_switch_provider_begin) w)
          else None
      | None => None
      end
  | Worker_finish e id =>
      match threadpool w !! id with
      | Some t =>
          if decide (status t = Running) then
            task_completed id t
              <$> outcome (task_switch_provider_locked e (spd_provider t) w)
          else None
      | None => None
      end
  end.

(** The worlds of an instance: those its constructor returns with, and
    those a step leads to. A constructor that throws leaves no instance. *)
Inductive reachable : world -> Prop :=
| reachable_created e data stored w :
    constructor e data (blank stored) = Ok tt w ->
    reachable w
| reachable_step a w w' :
    reachable w ->
    step a w = Some w' ->
    reachable w'.

Fixpoint steps (l : list action) (w : world) : option world :=
  match l with
  | [] => Some w
  | a :: l' =>
      match step a w with
      | Some w' => steps l' w'
      | None => None
      end
  end.

(** The world with further calls observed. *)
Definition observed (w : world) (evs : list event) : world :=
  {| self := self w; threadpool := threadpool w; settings := settings w;
     trace := trace w ++ evs |}.

(** The world with the adapter pointer replaced, and the one with
    [_provider_ready] replaced. *)
Definition holding (v : option greenscreen) (w : world) : world :=
  {| self := with_nvidia_fx v (self w); threadpool := threadpool w;
     settings := settings w; trace := trace w |}.

Definition readied (v : bool) (w : world) : world :=
  {| self := with_provider_ready v (self w); threadpool := threadpool w;
     settings := settings w; trace := trace w |}.

(** ** Reading a trace *)

(** What was observed between [w] and a later world [w']. *)
Definition new_events (w w' : world) : list event :=
  drop (length (trace w)) (trace w').

Definition is_capture (ev : event) : bool :=
  match ev with Input_render _ => true | _ => false end.

Definition is_process (ev : event) : bool :=
  match ev with Nv_process _ => true | _ => false end.

Definition occurrences (p : event -> bool) (evs : list event) : nat :=
  length (List.filter p evs).

(** The calls of the composite step for an effect [fx], in order. *)
Definition composite_events (fx : effect) (color alpha : texture)
    (size : N * N) : list event :=
  (if has_InputA fx then [Set_texture "InputA"%string color] else [])
  ++ (if has_InputB fx then [Set_texture "InputB"%string alpha] else [])
  ++ (if has_Threshold fx then [Set_float "Threshold"%string 666667] else [])
  ++ (if has_ThresholdRange fx then [Set_float "ThresholdRange"%string 333333] else [])
  ++ replicate (passes_DrawAlphaThreshold fx) (Draw_sprite size).

(** The calls of a capture that succeeds. *)
Definition capture_events (size : N * N) : list event :=
  [Process_filter_begin true; Input_render size; Process_filter_end].

(** ** Invariants of the switch coordinator *)

(** Every task in flight is the one [_provider_task] points to. *)
Definition owns_tasks_in_flight (w : world) : Prop :=
  forall (id : nat) (t : task),
    threadpool w !! id = Some t -> in_flight t = true ->
    _provider_task (self w) = Some id.

(** While a task is between its first statement and its end, the provider
    is not ready. *)
Definition unready_while_running (w : world) : Prop :=
  forall (id : nat) (t : task),
    threadpool w !! id = Some t -> status t = Running ->
    _provider_ready (self w) = false.

Definition coordinated (w : world) : Prop :=
  owns_tasks_in_flight w /\ unready_while_running w.

(** The invariant of the data model on [INVALID]. *)
Definition invalid_not_ready (w : world) : Prop :=
  _provider (self w) = INVALID -> _provider_ready (self w) = false.

(** The kind [update] asks [switch_provider] for (lines 174-178). *)
Definition requested (e : env) (data : obs_data) : virtual_greenscreen_provider :=
  if decide (data_Provider data = AUTOMATIC) then find_ideal_provider e
  else data_Provider data.

Definition requests_invalid (a : action) : Prop :=
  match a with
  | Host_update e data => requested e data = INVALID
  | _ => False
  end.

(** The world after lines 389-395 for the task [id], the pool being [q]
    once the task is out of the queue. *)
Definition released (id : nat) (q : list task) (w : world) : world :=
  {| self := with_provider_task None (self w);
     threadpool := q;
     settings := settings w;
     trace := trace w ++ [Threadpool_pop id; Await_completion id] |}.

(** The world after lines 399-405: the kind recorded, the task pushed. *)
Definition spawned (provider : virtual_greenscreen_provider) (w : world) : world :=
  {| self := with_provider_task (Some (length (threadpool w)))
               (with_provider provider (self w));
     threadpool := threadpool w
                   ++ [{| spd_provider := _provider (self w); status := Queued |}];
     settings := settings w;
     trace := trace w ++ [Threadpool_push (length (threadpool w))] |}.

(** No task of the pool is in flight. *)
Definition idle (w : world) : Prop :=
  forall (id : nat) (t : task), threadpool w !! id = Some t -> in_flight t = false.

(** Only a world in which no switch was ever requested has [INVALID] as its
    provider: it is not ready and has no task. *)
Definition pristine (w : world) : Prop :=
  _provider (self w) = INVALID ->
  _provider_ready (self w) = false /\ threadpool w = [].

(** Two worlds that the switch coordinator cannot tell apart. *)
Definition same_coordination (w w' : world) : Prop :=
  threadpool w' = threadpool w
  /\ settings w' = settings w
  /\ _provider_task (self w') = _provider_task (self w)
  /\ _provider_ready (self w') = _provider_ready (self w)
  /\ _provider (self w') = _provider (self w).

(** ** Worlds and answers used in examples *)

Module Example.

Definition fx : effect :=
  {| has_InputA := true; has_InputB := true; has_Threshold := true;
     has_ThresholdRange := true; passes_DrawAlphaThreshold := 1 |}.

(** Everything outside succeeds: a 1280x720 target, the adapter returns
    the mask 8 and the color buffer 9 for the captured texture 7. *)
Definition fine : env :=
  {| filter_target := true; filter_parent := true;
     base_width := 1280; base_height := 720;
     process_filter_begin := true; input_texture := 7;
     effect_file := Some fx; _nvidia_available := true;
     fx_construct := None; fx_destruct := None; fx_set_mode := None;
     fx_size := fun s => s; fx_process := inr 8; fx_get_color := 9 |}.

Definition boom : thrown := Std (std_exception "NvVFX_Run failed").

Definition with_process (r : thrown + texture) (e : env) : env :=
  {| filter_target := filter_target e; filter_parent := filter_parent e;
     base_width := base_width e; base_height := base_height e;
     process_filter_begin := process_filter_begin e;
     input_texture := input_texture e;
     effect_file := effect_file e; _nvidia_available := _nvidia_available e;
     fx_construct := fx_construct e; fx_destruct := fx_destruct e;
     fx_set_mode := fx_set_mode e; fx_size := fx_size e;
     fx_process := r; fx_get_color := fx_get_color e |}.

Definition with_size (width height : N) (e : env) : env :=
  {| filter_target := filter_target e; filter_parent := filter_parent e;
     base_width := width; base_height := height;
     process_filter_begin := process_filter_begin e;
     input_texture := input_texture e;
     effect_file := effect_file e; _nvidia_available := _nvidia_available e;
     fx_construct := fx_construct e; fx_destruct := fx_destruct e;
     fx_set_mode := fx_set_mode e; fx_size := fx_size e;
     fx_process := fx_process e; fx_get_color := fx_get_color e |}.

Definition with_begin (ok : bool) (e : env) : env :=
  {| filter_target := filter_target e; filter_parent := filter_parent e;
     base_width := base_width e; base_height := base_height e;
     process_filter_begin := ok;
     input_texture := input_texture e;
     effect_file := effect_file e; _nvidia_available := _nvidia_available e;
     fx_construct := fx_construct e; fx_destruct := fx_destruct e;
     fx_set_mode := fx_set_mode e; fx_size := fx_size e;
     fx_process := fx_process e; fx_get_color := fx_get_color e |}.

Definition with_construct (r : option thrown) (e : env) : env :=
  {| filter_target := filter_target e; filter_parent := filter_parent e;
     base_width := base_width e; base_height := base_height e;
     process_filter_begin := process_filter_begin e;
     input_texture := input_texture e;
     effect_file := effect_file e; _nvidia_available := _nvidia_available e;
     fx_construct := r; fx_destruct := fx_destruct e;
     fx_set_mode := fx_set_mode e; fx_size := fx_size e;
     fx_process := fx_process e; fx_get_color := fx_get_color e |}.

Definition with_set_mode (r : option thrown) (e : env) : env :=
  {| filter_target := filter_target e; filter_parent := filter_parent e;
     base_width := base_width e; base_height := base_height e;
     process_filter_begin := process_filter_begin e;
     input_texture := input_texture e;
     effect_file := effect_file e; _nvidia_available := _nvidia_available e;
     fx_construct := fx_construct e; fx_destruct := fx_destruct e;
     fx_set_mode := r; fx_size := fx_size e;
     fx_process := fx_process e; fx_get_color := fx_get_color e |}.

Definition with_destruct (r : option thrown) (e : env) : env :=
  {| filter_target := filter_target e; filter_parent := filter_parent e;
     base_width := base_width e; base_height := base_height e;
     process_filter_begin := process_filter_begin e;
     input_texture := input_texture e;
     effect_file := effect_file e; _nvidia_available := _nvidia_available e;
     fx_construct := fx_construct e; fx_destruct := r;
     fx_set_mode := fx_set_mode e; fx_size := fx_size e;
     fx_process := fx_process e; fx_get_color := fx_get_color e |}.

Definition use (provider : virtual_greenscreen_provider) (mode : Z) : obs_data :=
  {| data_Provider := provider; data_NVIDIA_Greenscreen_Mode := mode |}.

(** A filter just created with the default settings (automatic provider,
    quality mode 1): the first switch task is queued. *)
Definition created : world :=
  default (blank (use AUTOMATIC 1))
    (outcome (constructor fine (Some (use AUTOMATIC 1)) (blank (use AUTOMATIC 1)))).

(** The same filter once the task has run and a tick has passed. *)
Definition loaded : world :=
  default created
    (steps [Worker_begin 0; Worker_finish fine 0; Host_video_tick fine] created).

(** The loaded filter after a render in which [process] throws, and after
    the render that follows it with no tick between. *)
Definition skipped : world :=
  default loaded (outcome (video_render (with_process (inl boom) fine) loaded)).

Definition redrawn : world :=
  default skipped (outcome (video_render fine skipped)).

(** The loaded filter, rendered once and then once more with no tick
    between. *)
Definition drawn : world :=
  default loaded (outcome (video_render fine loaded)).

Definition drawn_again : world :=
  default drawn (outcome (video_render fine drawn)).

(** A switch away from the loaded provider is requested; then, before a
    worker picks the task up, a switch back. *)
Definition away : world :=
  default loaded (outcome (switch_provider INVALID loaded)).

Definition back : world :=
  default away (outcome (switch_provider NVIDIA_GREENSCREEN away)).

Definition back_rendered : world :=
  default back (outcome (video_render fine back)).

(** The settings of the loaded filter are changed to the kind [INVALID];
    then the task runs. *)
Definition asked_invalid : world :=
  default loaded (steps [Host_update fine (use INVALID 1)] loaded).

Definition settled_invalid : world :=
  default asked_invalid
    (steps [Worker_begin 1; Worker_finish fine 1] asked_invalid).

(** The first task of [created] when [set_mode] throws something that is
    no [std::exception]: the world the exception leaves behind. *)
Definition leaked : world :=
  default created
    (outcome (task_switch_provider (with_set_mode (Some Other) fine) INVALID
                created)).

(** The first task of [created], begun by a worker. *)
Definition begun : world :=
  default created (steps [Worker_begin 0] created).

(** The settings of the loaded filter are changed to a provider that is
    no enumerator. *)
Definition misnamed : world :=
  default loaded (steps [Host_update fine (use (Unlisted 2) 1)] loaded).

(** A second request, made while the task of the first is still queued. *)
Definition away_twice : world :=
  default away (outcome (switch_provider AUTOMATIC away)).

(** The effect file cannot be loaded. *)
Definition no_effect : env :=
  {| filter_target := filter_target fine; filter_parent := filter_parent fine;
     base_width := base_width fine; base_height := base_height fine;
     process_filter_begin := process_filter_begin fine;
     input_texture := input_texture fine;
     effect_file := None; _nvidia_available := _nvidia_available fine;
     fx_construct := fx_construct fine; fx_destruct := fx_destruct fine;
     fx_set_mode := fx_set_mode fine; fx_size := fx_size fine;
     fx_process := fx_process fine; fx_get_color := fx_get_color fine |}.

Definition bare : world :=
  default (blank (use AUTOMATIC 1))
    (outcome (constructor no_effect (Some (use AUTOMATIC 1))
                (blank (use AUTOMATIC 1)))).

Definition bare_loaded : world :=
  default bare (steps [Worker_begin 0; Worker_finish fine 0] bare).

End Example.

(** ** Further members of the instance *)

(** Lines 214-222: [std::max<uint32_t>(_size.first, 1)] and the same for
    the height. *)
Definition get_width (w : world) : N := N.max (fst (_size (self w))) 1.

Definition get_height (w : world) : N := N.max (snd (_size (self w))) 1.

(** The status of the task [_provider_task] points to. *)
Definition held_task_status (w : world) : option task_status :=
  match _provider_task (self w) with
  | Some id =>
      match threadpool w !! id with
      | Some t => Some (status t)
      | None => None
      end
  | None => None
  end.

(** [_provider_task], when it is not empty, points into the pool. *)
Definition handle_valid (w : world) : Prop :=
  forall id : nat, _provider_task (self w) = Some id -> id < length (threadpool w).

(** [_provider] is an enumerator, and [_provider_ui] is the same kind or is
    no enumerator. *)
Definition provider_named (w : world) : Prop :=
  is_enumerator (_provider (self w)) = true
  /\ (_provider_ui (self w) = _provider (self w)
      \/ is_enumerator (_provider_ui (self w)) = false).

(** The calls of the destructor that reach the adapter: [nvvfxgs_unload]
    when [_provider] is NVIDIA, and the adapter's destructor when an adapter
    is held. *)
Definition destructor_events (w : world) : list event :=
  (if decide (_provider (self w) = NVIDIA_GREENSCREEN) then [Nv_unload] else [])
  ++ match _nvidia_fx (self w) with
     | Some _ => [Fx_destruct]
     | None => []
     end.

(** The calls that reach the adapter object. *)
Definition is_adapter_call (ev : event) : bool :=
  match ev with
  | Nv_load | Nv_unload | Fx_construct | Fx_destruct
  | Nv_set_mode _ | Nv_size _ | Nv_process _ => true
  | _ => false
  end.

Definition is_push (ev : event) : bool :=
  match ev with Threadpool_push _ => true | _ => false end.

Definition is_draw (ev : event) : bool :=
  match ev with
  | Set_texture _ _ | Set_float _ _ | Draw_sprite _ => true
  | _ => false
  end.

(** Lines 201-212 and 490-505: the groups [properties] adds to the panel,
    each with the keys of the entries in it. *)
Definition nvvfxgs_properties : list (string * list string) :=
  [("NVIDIA.Greenscreen"%string, ["NVIDIA.Greenscreen.Mode"%string])].

Definition properties (w : world) : list (string * list string) :=
  match _provider_ui (self w) with
  | NVIDIA_GREENSCREEN => nvvfxgs_properties
  | _ => []
  end.

(** ** The factory (lines 521-565) *)

Module Factory.

(** The answers of the three SDK loaders of lines 531-533, [None] for a
    handle returned. *)
Record probes : Type := {
  cuda_get : option thrown;       (* ::streamfx::nvidia::cuda::obs::get() *)
  cv_get : option thrown;         (* ::streamfx::nvidia::cv::cv::get() *)
  vfx_get : option thrown;        (* ::streamfx::nvidia::vfx::vfx::get() *)
}.

(** The members the constructor writes; a handle is [true] when the shared
    pointer holds the SDK. [registered] records that lines 558-563 ran. *)
Record t : Type := {
  _nvcuda : bool;
  _nvcvi : bool;
  _nvvfx : bool;
  _nvidia_available : bool;
  registered : bool;
}.

Inductive log : Type :=
| Warning_nvidia (msg : option string)    (* lines 541 and 547 *)
| Error_all_failed                        (* line 553 *)
| Finish_setup.                           (* line 563 *)

(** The members before the body runs: empty pointers, nothing registered. *)
Definition fresh : t :=
  {| _nvcuda := false; _nvcvi := false; _nvvfx := false;
     _nvidia_available := false; registered := false |}.

(** The [try] block of lines 529-535, statement by statement: the factory
    as far as it got, and what was thrown. *)
Definition try_nvidia (p : probes) (f : t) : t * option thrown :=
  match cuda_get p with
  | Some x => (f, Some x)
  | None =>
      let f1 := {| _nvcuda := true; _nvcvi := _nvcvi f; _nvvfx := _nvvfx f;
                   _nvidia_available := _nvidia_available f;
                   registered := registered f |} in
      match cv_get p with
      | Some x => (f1, Some x)
      | None =>
          let f2 := {| _nvcuda := _nvcuda f1; _nvcvi := true; _nvvfx := _nvvfx f1;
                       _nvidia_available := _nvidia_available f1;
                       registered := registered f1 |} in
          match vfx_get p with
          | Some x => (f2, Some x)
          | None =>
              ({| _nvcuda := _nvcuda f2; _nvcvi := _nvcvi f2; _nvvfx := true;
                  _nvidia_available := true; registered := registered f2 |},
               None)
          end
      end
  end.

(** Both handlers, lines 536-548, the first for a [std::exception] and the
    second for anything else: the same resets, a different message. *)
Definition handler (x : thrown) (f : t) : t * list log :=
  ({| _nvcuda := false; _nvcvi := false; _nvvfx := false;
      _nvidia_available := false; registered := registered f |},
   [Warning_nvidia match x with Std ex => Some (what ex) | Other => None end]).

(** The constructor, lines 523-564; [any_available] is its local. *)
Definition constructor (p : probes) : t * list log :=
  let '(f, l, any_available) :=
    match try_nvidia p fresh with
    | (f, None) => (f, [], _nvidia_available f)
    | (f, Some x) => let '(f', l) := handler x f in (f', l, false)
    end in
  if negb any_available then (f, l ++ [Error_all_failed])
  else
    ({| _nvcuda := _nvcuda f; _nvcvi := _nvcvi f; _nvvfx := _nvvfx f;
        _nvidia_available := _nvidia_available f; registered := true |},
     l ++ [Finish_setup]).

End Factory.

(** The answers an instance gets when [factory] is the singleton that
    [virtual_greenscreen_factory::get()] returns (lines 659 and 177). *)
Definition served_by (factory : Factory.t) (e : env) : env :=
  {| filter_target := filter_target e; filter_parent := filter_parent e;
     base_width := base_width e; base_height := base_height e;
     process_filter_begin := process_filter_begin e;
     input_texture := input_texture e;
     effect_file := effect_file e;
     _nvidia_available := Factory._nvidia_available factory;
     fx_construct := fx_construct e; fx_destruct := fx_destruct e;
     fx_set_mode := fx_set_mode e; fx_size := fx_size e;
     fx_process := fx_process e; fx_get_color := fx_get_color e |}.

(** * Proofs *)

Ltac unfold_M :=
  unfold cstring, release_adapter in *;
  unfold mbind, mret, M_bind, M_ret, bind, ret, when, emit,
    set_size, set_provider, set_provider_ui, set_provider_ready,
    set_provider_task, set_effect, set_output_color, set_output_alpha,
    set_dirty, set_nvidia_fx, modify_self,
    modify_threadpool, store_settings, modify, get, throw, hang, fault,
    terminate, catch_std, catch_all, noexcept in *;
  unfold with_size, with_provider, with_provider_ui, with_provider_ready,
    with_provider_task, with_effect, with_output_color, with_output_alpha,
    with_dirty, with_nvidia_fx in *.

(** Closes a goal on traces that differ by the bracketing of [++]. *)
Ltac trace_eq :=
  unfold observed, new_events, capture_events; cbn;
  rewrite <- ?app_assoc; cbn;
  rewrite ?drop_app_length; cbn; auto.

(** Facts about the positions of a list that is written out. *)
Ltac small_list :=
  unfold not; intros;
  repeat match goal with
         | H : (_ :: _) !! ?i = Some _ |- _ =>
             is_var i; destruct i; simplify_eq/=
         | H : [] !! _ = Some _ |- _ => by cbn in H
         end;
  try done; try lia.


Section Traces.

Lemma observed_observed w a b : observed (observed w a) b = observed w (a ++ b).
Proof. unfold observed; cbn. by rewrite app_assoc. Qed.

Lemma observed_nil w : observed w [] = w.
Proof. unfold observed. by rewrite app_nil_r. Qed.

Lemma new_events_observed w evs : new_events w (observed w evs) = evs.
Proof. unfold new_events, observed; cbn. apply drop_app_length. Qed.

Lemma occurrences_app p a b :
  occurrences p (a ++ b) = occurrences p a + occurrences p b.
Proof. unfold occurrences. by rewrite List.filter_app, length_app. Qed.

Lemma occurrences_replicate_false p n ev :
  p ev = false -> occurrences p (replicate n ev) = 0.
Proof.
  intros Hp. unfold occurrences. induction n as [|n IH]; [done|].
  cbn. by rewrite Hp.
Qed.

Lemma effect_loop_emit n ev w :
  effect_loop n (emit ev) w = Ok tt (observed w (replicate n ev)).
Proof.
  revert w. induction n as [|n IH]; intros w; cbn.
  - unfold ret. by rewrite observed_nil.
  - unfold_M. cbn.
    change {| self := self w; threadpool := threadpool w;
              settings := settings w; trace := trace w ++ [ev] |}
      with (observed w [ev]).
    by rewrite IH, observed_observed.
Qed.

Lemma composite_spec w :
  composite w =
    match _effect (self w) with
    | None => Fault
    | Some fx =>
        Ok tt (observed w (composite_events fx (_output_color (self w))
                             (_output_alpha (self w)) (_size (self w))))
    end.
Proof.
  unfold composite, mbind, M_bind, bind, get.
  destruct (_effect (self w)) as [fx|]; [|done].
  unfold composite_events, when.
  destruct (has_InputA fx), (has_InputB fx), (has_Threshold fx),
    (has_ThresholdRange fx);
    cbn; rewrite effect_loop_emit; unfold observed; cbn;
    by rewrite <- ?app_assoc.
Qed.

Lemma composite_events_no_capture fx c a s :
  occurrences is_capture (composite_events fx c a s) = 0.
Proof.
  unfold composite_events. rewrite !occurrences_app.
  rewrite occurrences_replicate_false by done.
  by destruct (has_InputA fx), (has_InputB fx), (has_Threshold fx),
    (has_ThresholdRange fx).
Qed.

Lemma composite_events_no_process fx c a s :
  occurrences is_process (composite_events fx c a s) = 0.
Proof.
  unfold composite_events. rewrite !occurrences_app.
  rewrite occurrences_replicate_false by done.
  by destruct (has_InputA fx), (has_InputB fx), (has_Threshold fx),
    (has_ThresholdRange fx).
Qed.

End Traces.

(** ** The render path *)

Section Render.

Variables (e : env) (w : world).

(** What a tick leaves alone, and the one thing it always does. *)
Lemma video_tick_spec :
  exists w', video_tick e w = Ok tt w'
    /\ _dirty (self w') = true
    /\ _provider (self w') = _provider (self w)
    /\ _provider_ready (self w') = _provider_ready (self w)
    /\ _provider_task (self w') = _provider_task (self w)
    /\ _nvidia_fx (self w') = _nvidia_fx (self w)
    /\ _effect (self w') = _effect (self w)
    /\ _output_color (self w') = _output_color (self w)
    /\ _output_alpha (self w') = _output_alpha (self w)
    /\ threadpool w' = threadpool w
    /\ settings w' = settings w.
Proof.
  unfold video_tick, nvvfxgs_size. unfold_M. cbn.
  destruct (filter_target e), (_provider_ready (self w)) eqn:Hr,
    (_provider (self w)) eqn:Hp, (_nvidia_fx (self w)) eqn:Hfx;
    cbn; rewrite ?Hfx; cbn;
    eexists; (split; [reflexivity|]); cbn; rewrite ?Hr, ?Hp, ?Hfx;
    repeat split; reflexivity.
Qed.

Lemma skip_filter_true :
  _provider_ready (self w) = false
  \/ (filter_target e = false /\ filter_parent e = false)
  \/ base_width e = 0%N \/ base_height e = 0%N ->
  skip_filter e w = true.
Proof.
  unfold skip_filter.
  intros [-> | [[-> ->] | [-> | ->]]]; cbn;
    rewrite ?orb_true_r; try reflexivity;
    destruct (_provider_ready (self w)), (filter_target e), (filter_parent e);
    cbn; rewrite ?orb_true_r; reflexivity.
Qed.

(** A render of a world whose cache is fresh goes straight to the
    composite step. *)
Lemma video_render_clean :
  skip_filter e w = false -> _dirty (self w) = false ->
  video_render e w = composite w.
Proof.
  intros Hs Hd. unfold video_render. unfold_M. cbn. by rewrite Hs, Hd.
Qed.

End Render.

Section RenderSummary.

Variables (e : env) (w w1 : world).

(** One render: what it adds to the trace, how often it captures and
    processes, and when it leaves the cache fresh. *)
Lemma video_render_summary :
  video_render e w = Ok tt w1 ->
  exists evs,
    trace w1 = trace w ++ evs
    /\ occurrences is_capture evs <= 1
    /\ occurrences is_process evs <= occurrences is_capture evs
    /\ (_dirty (self w) = false ->
        occurrences is_capture evs = 0 /\ _dirty (self w1) = false)
    /\ (occurrences is_capture evs = 1 ->
        (forall ex, fx_process e <> inl ex) -> _dirty (self w1) = false)
    /\ (skip_filter e w = false -> process_filter_begin e = true ->
        (forall ex, fx_process e <> inl ex) -> _dirty (self w1) = false).
Proof.
  unfold video_render, refresh, capture, process, nvvfxgs_process.
  unfold_M. cbn.
  destruct (skip_filter e w).
  { intros [= <-]. exists [Skip_video_filter]. cbn. repeat split; auto; done. }
  destruct (_dirty (self w)) eqn:Hd; cbn.
  2:{ rewrite composite_spec. destruct (_effect (self w)); [|done].
      intros [= <-]. eexists. split; [reflexivity|].
      rewrite composite_events_no_capture, composite_events_no_process.
      cbn. repeat split; auto; lia. }
  destruct (process_filter_begin e); cbn.
  2:{ intros [= <-]. eexists. split; [cbn; rewrite <- !app_assoc; reflexivity|].
      cbn. repeat split; auto; try lia; try done. }
  assert (Hfin : forall (s : virtual_greenscreen_instance) (pr : list event) q w',
    occurrences is_capture pr = 0 -> occurrences is_process pr <= 1 ->
    _dirty s = false -> _effect s = _effect (self w) ->
    composite {| self := s; threadpool := q; settings := settings w;
                 trace := trace w ++ capture_events (_size (self w)) ++ pr |}
      = Ok tt w' ->
    exists evs, trace w' = trace w ++ evs
      /\ occurrences is_capture evs <= 1
      /\ occurrences is_process evs <= occurrences is_capture evs
      /\ (true = false -> occurrences is_capture evs = 0 /\ _dirty (self w') = false)
      /\ (occurrences is_capture evs = 1 ->
          (forall ex, fx_process e <> inl ex) -> _dirty (self w') = false)
      /\ (false = false -> true = true ->
          (forall ex, fx_process e <> inl ex) -> _dirty (self w') = false)).
  { intros s pr q w' Hc Hp Hds Hes. rewrite composite_spec. cbn. rewrite Hes.
    destruct (_effect (self w)) as [fx|]; [|done]. intros [= <-].
    exists (capture_events (_size (self w)) ++ pr
            ++ composite_events fx (_output_color s) (_output_alpha s) (_size s)).
    split; [cbn; by rewrite <- !app_assoc|].
    rewrite !occurrences_app, composite_events_no_capture,
      composite_events_no_process, Hc.
    cbn. repeat split; auto; try lia; try done. }
  destruct (_provider (self w)); cbn;
    try (intros H; eapply (Hfin _ []);
         [| | | |revert H; rewrite <- !app_assoc; exact id];
         cbn; (done || lia)).
  destruct (_nvidia_fx (self w)); cbn;
    try (intros H; eapply (Hfin _ []);
         [| | | |revert H; rewrite <- !app_assoc; exact id];
         cbn; (done || lia)).
  destruct (fx_process e) as [ex|alpha] eqn:Hpr; cbn.
  - intros [= <-]. eexists.
    split; [cbn; rewrite <- !app_assoc; reflexivity|].
    cbn. repeat split; auto; try lia; try done.
    + intros _ Hno. by destruct (Hno ex).
    + intros _ _ Hno. by destruct (Hno ex).
  - intros H; eapply (Hfin _ [Nv_process (input_texture e)]);
      [| | | |revert H; rewrite <- !app_assoc; exact id]; cbn; (done || lia).
Qed.

End RenderSummary.

(** ** Claims on the render path *)

(** C5. A render call is skipped, and the frame passed through, when the
    provider is not ready, or there is no target (neither the filter target
    nor the parent it falls back to), or the width or the height read from
    the target is zero: the call makes the one call
    [obs_source_skip_video_filter] and changes nothing in the object. The
    zero sizes skip whatever [_provider_ready] is. *)
Theorem video_render_skips (e : env) (w : world) :
  _provider_ready (self w) = false
  \/ (filter_target e = false /\ filter_parent e = false)
  \/ base_width e = 0%N \/ base_height e = 0%N ->
  video_render e w = Ok tt (observed w [Skip_video_filter]).
Proof.
  intros H. unfold video_render. unfold_M. cbn.
  by rewrite (skip_filter_true e w H).
Qed.

Lemma video_render_skips_witness :
  _provider_ready (self Example.loaded) = true
  /\ video_render (Example.with_size 0 720 Example.fine) Example.loaded
     = Ok tt (observed Example.loaded [Skip_video_filter]).
Proof.
  split; [reflexivity|].
  apply (video_render_skips (Example.with_size 0 720 Example.fine) Example.loaded).
  right; right; left. reflexivity.
Defined.

(** C10. When [obs_source_process_filter_begin] fails during a render of a
    stale cache, the frame is passed through: the call ends with
    [obs_source_skip_video_filter] and leaves the object as it was, [_dirty]
    still true and the two cached buffers unchanged. *)
Theorem capture_failure_passes_through (e : env) (w : world) :
  skip_filter e w = false ->
  _dirty (self w) = true ->
  process_filter_begin e = false ->
  exists w',
    video_render e w = Ok tt w'
    /\ new_events w w' = [Process_filter_begin false; Skip_video_filter]
    /\ self w' = self w
    /\ _dirty (self w') = true
    /\ _output_color (self w') = _output_color (self w)
    /\ _output_alpha (self w') = _output_alpha (self w).
Proof.
  intros Hs Hd Hb.
  exists (observed w [Process_filter_begin false; Skip_video_filter]).
  split.
  - unfold video_render, refresh, capture. unfold_M. cbn.
    rewrite Hs, Hd, Hb. cbn. unfold observed. cbn. by rewrite <- app_assoc.
  - rewrite new_events_observed. cbn. by rewrite Hd.
Qed.

Lemma capture_failure_passes_through_witness :
  exists w',
    video_render (Example.with_begin false Example.fine) Example.loaded = Ok tt w'
    /\ new_events Example.loaded w' = [Process_filter_begin false; Skip_video_filter]
    /\ self w' = self Example.loaded
    /\ _dirty (self w') = true
    /\ _output_color (self w') = _output_color (self Example.loaded)
    /\ _output_alpha (self w') = _output_alpha (self Example.loaded).
Proof.
  apply (capture_failure_passes_through
           (Example.with_begin false Example.fine) Example.loaded);
    reflexivity.
Defined.

(** C7. When the adapter's [process] throws during a render, the frame is
    skipped: after the capture the call ends with
    [obs_source_skip_video_filter], nothing of the composite step is done,
    and [_dirty] is still true. The failure is not fatal: after the next
    tick a render whose capture and process succeed does capture, process
    and composite, and clears [_dirty]. *)
Theorem process_failure_is_transient (e : env) (w : world) (g : greenscreen)
    (ex : thrown) :
  skip_filter e w = false ->
  _dirty (self w) = true ->
  process_filter_begin e = true ->
  _provider (self w) = NVIDIA_GREENSCREEN ->
  _nvidia_fx (self w) = Some g ->
  fx_process e = inl ex ->
  exists w',
    video_render e w = Ok tt w'
    /\ new_events w w' =
         capture_events (_size (self w))
         ++ [Nv_process (input_texture e); Skip_video_filter]
    /\ _dirty (self w') = true
    /\ forall (e1 e2 : env) (alpha : texture) (fx : effect),
         process_filter_begin e2 = true ->
         fx_process e2 = inr alpha ->
         _effect (self w) = Some fx ->
         exists w1 w2,
           video_tick e1 w' = Ok tt w1
           /\ (skip_filter e2 w1 = false ->
               video_render e2 w1 = Ok tt w2
               /\ new_events w1 w2 =
                    capture_events (_size (self w1))
                    ++ [Nv_process (input_texture e2)]
                    ++ composite_events fx (fx_get_color e2) alpha (_size (self w1))
               /\ _dirty (self w2) = false).
Proof.
  intros Hs Hd Hb Hp Hfx Hpr.
  unfold video_render at 1. unfold refresh, capture, process, nvvfxgs_process.
  unfold_M. cbn.
  rewrite Hs, Hd, Hb. cbn. rewrite Hp, Hfx. cbn. rewrite Hpr. cbn.
  eexists. split; [reflexivity|].
  split; [trace_eq|]. split; [done|].
  intros e1 e2 alpha fx Hb2 Hpr2 Hfx2.
  match goal with |- context [video_tick e1 ?w0] =>
    destruct (video_tick_spec e1 w0)
      as (w1 & Ht & Hd1 & Hp1 & Hr1 & _ & Hn1 & He1 & _) end.
  cbn in Hp1, Hr1, Hn1, He1.
  eexists w1, _. split; [exact Ht|]. intros Hs2.
  unfold video_render, refresh, capture, process, nvvfxgs_process.
  unfold_M. cbn.
  rewrite Hs2, Hd1, Hb2. cbn. rewrite Hp1. cbn. rewrite Hn1. cbn.
  rewrite Hpr2. cbn.
  rewrite composite_spec. cbn. rewrite He1, Hfx2.
  split; [reflexivity|]. split; [trace_eq|done].
Qed.

Lemma process_failure_is_transient_witness :
  exists w',
    video_render (Example.with_process (inl Example.boom) Example.fine) Example.loaded
      = Ok tt w'
    /\ new_events Example.loaded w' =
         capture_events (1280, 720)%N ++ [Nv_process 7; Skip_video_filter]
    /\ _dirty (self w') = true.
Proof.
  destruct (process_failure_is_transient
              (Example.with_process (inl Example.boom) Example.fine)
              Example.loaded {| fx_mode := Some 1%Z |} Example.boom
              eq_refl eq_refl eq_refl eq_refl eq_refl eq_refl)
    as (w' & H1 & H2 & H3 & _).
  exists w'. split; [exact H1|]. split; [exact H2|exact H3].
Defined.

(** C6, as the code has it. Every tick sets [_dirty]. Two renders with no
    tick between them capture at most once and process at most once in all,
    provided the adapter's [process] does not throw in the first: a first
    render that captures and processes clears [_dirty]; a render that finds
    the cache fresh neither captures nor processes, binds the cached color
    and alpha buffers and draws the composite. *)
Theorem dirty_flag_caching :
  (forall e w, exists w', video_tick e w = Ok tt w' /\ _dirty (self w') = true)
  /\ (forall e1 e2 w w1 w2,
        video_render e1 w = Ok tt w1 ->
        video_render e2 w1 = Ok tt w2 ->
        (forall ex, fx_process e1 <> inl ex) ->
        occurrences is_capture (new_events w w2) <= 1
        /\ occurrences is_process (new_events w w2) <= 1)
  /\ (forall e1 w w1,
        video_render e1 w = Ok tt w1 ->
        skip_filter e1 w = false ->
        process_filter_begin e1 = true ->
        (forall ex, fx_process e1 <> inl ex) ->
        _dirty (self w1) = false)
  /\ (forall e2 w1 fx,
        _dirty (self w1) = false ->
        skip_filter e2 w1 = false ->
        _effect (self w1) = Some fx ->
        video_render e2 w1 =
          Ok tt (observed w1 (composite_events fx (_output_color (self w1))
                                (_output_alpha (self w1)) (_size (self w1))))).
Proof.
  split; [|split; [|split]].
  - intros e w. destruct (video_tick_spec e w) as (w' & H & Hd & _). eauto.
  - intros e1 e2 w w1 w2 H1 H2 Hno.
    destruct (video_render_summary e1 w w1 H1) as (a & Ta & Ca & Pa & _ & Da & _).
    destruct (video_render_summary e2 w1 w2 H2) as (b & Tb & Cb & Pb & Fb & _ & _).
    assert (Hn : new_events w w2 = a ++ b).
    { unfold new_events. rewrite Tb, Ta, <- app_assoc. apply drop_app_length. }
    rewrite Hn, !occurrences_app.
    destruct (decide (occurrences is_capture a = 1)) as [Ha|Ha].
    + destruct (Fb (Da Ha Hno)) as [Hb _]. lia.
    + lia.
  - intros e1 w w1 H Hs Hb Hno.
    destruct (video_render_summary e1 w w1 H) as (a & _ & _ & _ & _ & _ & Da).
    by apply Da.
  - intros e2 w1 fx Hd Hs He.
    rewrite (video_render_clean e2 w1 Hs Hd), composite_spec. by rewrite He.
Qed.

Lemma dirty_flag_caching_witness :
  occurrences is_capture (new_events Example.loaded Example.drawn_again) <= 1
  /\ occurrences is_process (new_events Example.loaded Example.drawn_again) <= 1
  /\ _dirty (self Example.drawn) = false
  /\ video_render Example.fine Example.drawn =
       Ok tt (observed Example.drawn
                (composite_events Example.fx 9 8 (1280, 720)%N)).
Proof.
  destruct dirty_flag_caching as (_ & H2 & H3 & H4).
  split; [|split; [|split]].
  - apply (H2 Example.fine Example.fine Example.loaded Example.drawn
             Example.drawn_again); [reflexivity|reflexivity|discriminate].
  - apply (H2 Example.fine Example.fine Example.loaded Example.drawn
             Example.drawn_again); [reflexivity|reflexivity|discriminate].
  - apply (H3 Example.fine Example.loaded Example.drawn);
      [reflexivity|reflexivity|reflexivity|discriminate].
  - apply (H4 Example.fine Example.drawn Example.fx); reflexivity.
Defined.

(** C6 as it is written fails: when [process] throws in the first of two
    renders, [_dirty] stays true and the second render, with no tick in
    between, captures and processes again. *)
Lemma render_twice_recaptures :
  video_render (Example.with_process (inl Example.boom) Example.fine) Example.loaded
    = Ok tt Example.skipped
  /\ video_render Example.fine Example.skipped = Ok tt Example.redrawn
  /\ new_events Example.loaded Example.redrawn =
       [Process_filter_begin true; Input_render (1280, 720)%N; Process_filter_end;
        Nv_process 7; Skip_video_filter;
        Process_filter_begin true; Input_render (1280, 720)%N; Process_filter_end;
        Nv_process 7;
        Set_texture "InputA" 9; Set_texture "InputB" 8;
        Set_float "Threshold" 666667; Set_float "ThresholdRange" 333333;
        Draw_sprite (1280, 720)%N]
  /\ occurrences is_capture (new_events Example.loaded Example.redrawn) = 2
  /\ occurrences is_process (new_events Example.loaded Example.redrawn) = 2.
Proof. repeat split; vm_compute; reflexivity. Qed.

(** ** Claims on the switch request *)

(** C9. A request for the kind that is already [_provider] returns at the
    guard of line 374: the world is the same afterwards, so no task is
    spawned, nothing is logged, and [_provider], [_provider_ready] and the
    task held are as before. *)
Theorem switch_provider_same_kind_noop (w : world) :
  switch_provider (_provider (self w)) w = Ok tt w.
Proof.
  unfold switch_provider. unfold_M. cbn. by rewrite decide_True.
Qed.

(** ** The switch coordinator *)

Section Coordinator.

Lemma filter_in_flight_nil (q : list task) :
  (forall i t, q !! i = Some t -> in_flight t = false) ->
  List.filter in_flight q = [].
Proof.
  induction q as [|t q IH]; intros H; [done|]. cbn.
  rewrite (H 0 t eq_refl). apply IH. intros i u Hi. exact (H (S i) u Hi).
Qed.

Lemma filter_in_flight_at_most_one (q : list task) :
  (forall i j t u, q !! i = Some t -> q !! j = Some u ->
                   in_flight t = true -> in_flight u = true -> i = j) ->
  length (List.filter in_flight q) <= 1.
Proof.
  induction q as [|t q IH]; intros H; cbn; [lia|].
  destruct (in_flight t) eqn:Ht.
  - rewrite filter_in_flight_nil; [cbn; lia|].
    intros i u Hi. destruct (in_flight u) eqn:Hu; [|done].
    by specialize (H 0 (S i) t u eq_refl Hi Ht Hu).
  - apply IH. intros i j a b Hi Hj Ha Hb.
    by injection (H (S i) (S j) a b Hi Hj Ha Hb).
Qed.

Lemma idle_tasks_in_flight w : idle w -> tasks_in_flight w = 0.
Proof. intros H. unfold tasks_in_flight. by rewrite filter_in_flight_nil. Qed.

Lemma owns_at_most_one w : owns_tasks_in_flight w -> tasks_in_flight w <= 1.
Proof.
  intros H. apply filter_in_flight_at_most_one.
  intros i j t u Hi Hj Ht Hu.
  pose proof (H i t Hi Ht) as E1. pose proof (H j u Hj Hu) as E2. congruence.
Qed.

Lemma coordinated_view w w' :
  threadpool w' = threadpool w ->
  _provider_task (self w') = _provider_task (self w) ->
  _provider_ready (self w') = _provider_ready (self w) ->
  coordinated w -> coordinated w'.
Proof.
  intros Hq Ht Hr [Ho Hu]. split.
  - intros id t. rewrite Hq, Ht. apply Ho.
  - intros id t. rewrite Hq, Hr. apply Hu.
Qed.

(** Lines 387-396 by cases on the task held. *)
Lemma dequeue_provider_task_spec w :
  dequeue_provider_task w =
    match _provider_task (self w) with
    | None => Ok tt w
    | Some id =>
        match threadpool w !! id with
        | None => Fault
        | Some t =>
            match status t with
            | Queued =>
                Ok tt (released id (<[id := set_status Dequeued t]> (threadpool w)) w)
            | Running => Hang
            | Completed | Dequeued => Ok tt (released id (threadpool w) w)
            end
        end
    end.
Proof.
  unfold dequeue_provider_task, threadpool_pop, await_completion. unfold_M. cbn.
  destruct (_provider_task (self w)) as [id|]; [|done].
  destruct (threadpool w !! id) as [t|] eqn:Hl; cbn; [|done].
  destruct (status t) eqn:Hs; cbn; rewrite ?Hl; cbn; rewrite ?Hs; cbn;
    unfold released, with_provider_task; cbn; rewrite <- ?app_assoc; try done.
  rewrite list_lookup_insert_eq by (by eapply lookup_lt_Some). cbn.
  by rewrite <- ?app_assoc.
Qed.

(** Once the task held is out of the way, nothing is in flight. *)
Lemma dequeue_provider_task_idle w w1 :
  owns_tasks_in_flight w ->
  dequeue_provider_task w = Ok tt w1 ->
  idle w1
  /\ self w1 = with_provider_task None (self w)
  /\ settings w1 = settings w
  /\ length (threadpool w1) = length (threadpool w)
  /\ trace w1 =
       trace w ++ match _provider_task (self w) with
                  | Some id => [Threadpool_pop id; Await_completion id]
                  | None => []
                  end.
Proof.
  intros Ho. rewrite dequeue_provider_task_spec.
  destruct (_provider_task (self w)) as [id|] eqn:Hh.
  - destruct (threadpool w !! id) as [t|] eqn:Hl; [|done].
    destruct (status t) eqn:Hs; try done; intros [= <-];
      (split; [|unfold released; cbn; rewrite ?length_insert;
                by repeat split]).
    + intros i u. cbn. rewrite list_lookup_insert_Some.
      intros [(_ & <- & _)|(Hne & Hi)]; [done|].
      destruct (in_flight u) eqn:Hu; [|done].
      pose proof (Ho i u Hi Hu). congruence.
    + intros i u Hi. cbn in Hi. destruct (in_flight u) eqn:Hu; [|done].
      pose proof (Ho i u Hi Hu) as E. rewrite Hh in E.
      injection E as <-. rewrite Hl in Hi. injection Hi as <-.
      unfold in_flight in Hu. by rewrite Hs in Hu.
    + intros i u Hi. cbn in Hi. destruct (in_flight u) eqn:Hu; [|done].
      pose proof (Ho i u Hi Hu) as E. rewrite Hh in E.
      injection E as <-. rewrite Hl in Hi. injection Hi as <-.
      unfold in_flight in Hu. by rewrite Hs in Hu.
  - intros [= <-]. split.
    + intros i u Hi. destruct (in_flight u) eqn:Hu; [|done].
      pose proof (Ho i u Hi Hu). congruence.
    + unfold with_provider_task. rewrite <- Hh.
      repeat split. by rewrite app_nil_r.
Qed.

(** Lines 371-405 for a kind that differs from the current one, when both
    kinds have a name. *)
Lemma switch_provider_spec w provider :
  provider <> _provider (self w) ->
  is_enumerator (_provider (self w)) = true ->
  is_enumerator provider = true ->
  switch_provider provider w =
    match dequeue_provider_task
            (observed w [LogInfo_switching (_provider (self w)) provider]) with
    | Ok _ w1 => Ok tt (spawned provider w1)
    | Throw x w1 => Throw x w1
    | Hang => Hang
    | Fault => Fault
    | Terminate => Terminate
    end.
Proof.
  intros Hne H1 H2. unfold switch_provider, threadpool_push.
  unfold mbind at 1. unfold M_bind, bind at 1, get at 1.
  rewrite decide_False by done.
  unfold mbind at 1. unfold M_bind, bind at 1.
  destruct (_provider (self w)) eqn:Hp; try done;
    destruct provider; try done; cbn [cstring]; unfold ret at 1;
    unfold mbind at 1; unfold M_bind, bind at 1; unfold ret at 1;
    unfold mbind at 1; unfold M_bind, bind at 1;
    unfold emit at 1, modify at 1;
    unfold mbind at 1; unfold M_bind, bind at 1;
    match goal with |- context [dequeue_provider_task ?v] =>
      change v with (observed w [LogInfo_switching (_provider (self w)) _]);
      rewrite Hp
    end;
    destruct (dequeue_provider_task _) as [[] w1| | | |]; try done.
Qed.

(** Line 383 when one of the two kinds has no name: [cstring] throws, and
    nothing has been written. *)
Lemma switch_provider_unlisted w provider :
  provider <> _provider (self w) ->
  is_enumerator (_provider (self w)) && is_enumerator provider = false ->
  switch_provider provider w = Throw (Std Missing_Conversion_Entry) w.
Proof.
  intros Hne H. unfold switch_provider.
  unfold mbind at 1. unfold M_bind, bind at 1, get at 1.
  rewrite decide_False by done.
  destruct (_provider (self w)), provider; done.
Qed.

(** A switch request that returns had names for both kinds. *)
Lemma switch_provider_named w provider w' :
  provider <> _provider (self w) ->
  switch_provider provider w = Ok tt w' ->
  is_enumerator (_provider (self w)) = true /\ is_enumerator provider = true.
Proof.
  intros Hne H.
  destruct (is_enumerator (_provider (self w)) && is_enumerator provider) eqn:E.
  - by apply andb_true_iff in E.
  - by rewrite switch_provider_unlisted in H.
Qed.

(** The only exception that leaves a switch request is the one of line 383. *)
Lemma switch_provider_throws w provider x w' :
  switch_provider provider w = Throw x w' ->
  provider <> _provider (self w)
  /\ is_enumerator (_provider (self w)) && is_enumerator provider = false
  /\ x = Std Missing_Conversion_Entry
  /\ w' = w.
Proof.
  destruct (decide (provider = _provider (self w))) as [->|Hne].
  { unfold switch_provider. unfold_M. cbn. by rewrite decide_True. }
  destruct (is_enumerator (_provider (self w)) && is_enumerator provider) eqn:E.
  - apply andb_true_iff in E as [E1 E2].
    rewrite switch_provider_spec, dequeue_provider_task_spec by done. cbn.
    repeat case_match; done.
  - rewrite switch_provider_unlisted by done. by intros [= <- <-].
Qed.

Lemma spawned_coordinated provider w1 :
  idle w1 -> coordinated (spawned provider w1) /\ tasks_in_flight (spawned provider w1) = 1.
Proof.
  intros Hi. split; [split|].
  - intros i t. cbn. rewrite lookup_snoc_Some.
    intros [[_ Hl]|[-> _]] Ht; [|done].
    by rewrite (Hi i t Hl) in Ht.
  - intros i t. cbn. rewrite lookup_snoc_Some.
    intros [[_ Hl]|[_ <-]] Ht; [|done].
    pose proof (Hi i t Hl) as Hf. unfold in_flight in Hf. by rewrite Ht in Hf.
  - unfold tasks_in_flight. cbn.
    by rewrite List.filter_app, length_app, (filter_in_flight_nil _ Hi).
Qed.

End Coordinator.

(** From a switch request that returned: both kinds have a name, and the
    request is its three stages. *)
Ltac switch_named Hne :=
  let H := fresh "H" in
  let E1 := fresh "E" in
  let E2 := fresh "E" in
  match goal with
  | |- switch_provider ?p ?w0 = _ -> _ =>
      intros H; destruct (switch_provider_named w0 p _ Hne H) as [E1 E2];
      revert H; rewrite (switch_provider_spec w0 p Hne E1 E2)
  end.

Ltac switch_named_in Hne Hsw :=
  let E1 := fresh "E" in
  let E2 := fresh "E" in
  match type of Hsw with
  | switch_provider ?p ?w0 = _ =>
      destruct (switch_provider_named w0 p _ Hne Hsw) as [E1 E2];
      rewrite (switch_provider_spec w0 p Hne E1 E2) in Hsw
  end.

(** ** The switch task *)

Section Task.

Variables (e : env).

Lemma nvvfxgs_unload_spec w :
  nvvfxgs_unload e w =
    match _nvidia_fx (self w) with
    | None => Ok tt (observed w [Nv_unload])
    | Some _ =>
        match fx_destruct e with
        | Some _ => Terminate
        | None => Ok tt (observed (holding None w) [Nv_unload; Fx_destruct])
        end
    end.
Proof.
  unfold nvvfxgs_unload. unfold_M. cbn.
  destruct (_nvidia_fx (self w)); [|done].
  destruct (fx_destruct e); cbn; [done|].
  unfold observed, holding. cbn. by rewrite <- app_assoc.
Qed.

Lemma nvvfxgs_load_spec w :
  nvvfxgs_load e w =
    match fx_construct e with
    | Some x => Throw x (observed w [Nv_load; Fx_construct])
    | None =>
        match _nvidia_fx (self w) with
        | None =>
            Ok tt (observed (holding (Some {| fx_mode := None |}) w)
                     [Nv_load; Fx_construct])
        | Some _ =>
            match fx_destruct e with
            | Some _ => Terminate
            | None =>
                Ok tt (observed (holding (Some {| fx_mode := None |}) w)
                         [Nv_load; Fx_construct; Fx_destruct])
            end
        end
    end.
Proof.
  unfold nvvfxgs_load. unfold_M. cbn.
  destruct (fx_construct e); cbn.
  { unfold observed. cbn. by rewrite <- app_assoc. }
  destruct (_nvidia_fx (self w)); cbn.
  - destruct (fx_destruct e); cbn; [done|].
    unfold observed, holding. cbn. by rewrite <- !app_assoc.
  - unfold observed, holding. cbn. by rewrite <- !app_assoc.
Qed.

Lemma nvvfxgs_update_spec data w :
  nvvfxgs_update e data w =
    match _nvidia_fx (self w) with
    | None => Ok tt w
    | Some _ =>
        let mode := greenscreen_mode_cast (data_NVIDIA_Greenscreen_Mode data) in
        match fx_set_mode e with
        | Some x => Throw x (observed w [Nv_set_mode mode])
        | None =>
            Ok tt (observed (holding (Some {| fx_mode := Some mode |}) w)
                     [Nv_set_mode mode])
        end
    end.
Proof.
  unfold nvvfxgs_update. unfold_M. cbn.
  destruct (_nvidia_fx (self w)); [|done]. by destruct (fx_set_mode e).
Qed.

(** The load block by cases: the constructor, the release of an adapter
    still held, the mode. *)
Lemma load_current_spec w :
  load_current e w =
    match _provider (self w) with
    | NVIDIA_GREENSCREEN =>
        let mode :=
          greenscreen_mode_cast (data_NVIDIA_Greenscreen_Mode (settings w)) in
        match fx_construct e with
        | Some x => Throw x (observed w [Nv_load; Fx_construct])
        | None =>
            match _nvidia_fx (self w), fx_destruct e with
            | Some _, Some _ => Terminate
            | held, _ =>
                let evs :=
                  [Nv_load; Fx_construct]
                  ++ match held with Some _ => [Fx_destruct] | None => [] end
                  ++ [Nv_set_mode mode] in
                match fx_set_mode e with
                | Some x =>
                    Throw x (observed (holding (Some {| fx_mode := None |}) w) evs)
                | None =>
                    Ok tt (observed (holding (Some {| fx_mode := Some mode |}) w) evs)
                end
            end
        end
    | _ => Ok tt w
    end.
Proof.
  unfold load_current.
  unfold mbind at 1. unfold M_bind, bind at 1, get at 1.
  destruct (_provider (self w)); try done.
  unfold mbind at 1. unfold M_bind, bind at 1.
  rewrite nvvfxgs_load_spec.
  destruct (fx_construct e); [done|].
  destruct (_nvidia_fx (self w)); [destruct (fx_destruct e); [done|]|];
    unfold mbind, M_bind, bind, get; rewrite nvvfxgs_update_spec; cbn;
    destruct (fx_set_mode e); unfold observed, holding; cbn;
    by rewrite <- ?app_assoc.
Qed.

(** The locked part of the task as the sequence of its blocks, with what
    the handler of line 453 makes of each way a block can end. *)
Lemma task_switch_provider_locked_spec spd w :
  task_switch_provider_locked e spd w =
    match unload_previous e spd w with
    | Ok _ w1 =>
        match load_current e w1 with
        | Ok _ w2 =>
            if is_enumerator spd && is_enumerator (_provider (self w2)) then
              Ok tt (readied true
                       (observed w2 [LogInfo_switched spd (_provider (self w2))]))
            else
              Ok tt (observed w2 [LogError_switch (what Missing_Conversion_Entry)])
        | Throw (Std ex) w2 => Ok tt (observed w2 [LogError_switch (what ex)])
        | r => r
        end
    | Throw (Std ex) w1 => Ok tt (observed w1 [LogError_switch (what ex)])
    | r => r
    end.
Proof.
  unfold task_switch_provider_locked, catch_std.
  unfold mbind at 1. unfold M_bind, bind at 1.
  destruct (unload_previous e spd w) as [[] w1|[ex|] w1| | |]; try done.
  unfold mbind at 1. unfold M_bind, bind at 1.
  destruct (load_current e w1) as [[] w2|[ex|] w2| | |]; try done.
  unfold log_switched. unfold_M. cbn.
  destruct spd, (_provider (self w2)); done.
Qed.

Lemma unload_previous_spec spd w :
  unload_previous e spd w =
    match spd with
    | NVIDIA_GREENSCREEN =>
        match _nvidia_fx (self w) with
        | None => Ok tt (observed w [Nv_unload])
        | Some _ =>
            match fx_destruct e with
            | Some _ => Terminate
            | None => Ok tt (observed (holding None w) [Nv_unload; Fx_destruct])
            end
        end
    | _ => Ok tt w
    end.
Proof. unfold unload_previous. destruct spd; try done. apply nvvfxgs_unload_spec. Qed.

(** The task is its first statement, then the locked part. *)
Lemma task_switch_provider_unfold spd w :
  task_switch_provider e spd w = task_switch_provider_locked e spd (readied false w).
Proof. reflexivity. Qed.

End Task.

(** Case analysis on the answers that decide how a call ends: [t] is split
    only where the result still depends on it. *)
Tactic Notation "split_result" constr(t) "as" simple_intropattern(p)
    "eqn" ident(H) :=
  try match goal with E : t = _ |- _ => rewrite E end;
  match goal with
  | |- ?r = _ -> _ =>
      match r with context [t] => destruct t as p eqn:H; rewrite ?H end
  | _ => idtac
  end.

(** The task by cases, for a goal [task ... = r -> _] or
    [outcome (task ...) = r -> _]. *)
Ltac task_cases e spd w :=
  rewrite ?task_switch_provider_unfold;
  rewrite task_switch_provider_locked_spec, unload_previous_spec;
  cbn [readied holding observed self settings threadpool trace
       _nvidia_fx _provider with_provider_ready with_nvidia_fx];
  destruct spd; cbv beta iota;
  split_result (_nvidia_fx (self w)) as [?|] eqn Hfx;
  split_result (fx_destruct e) as [?|] eqn Hd;
  cbv beta iota; try done;
  rewrite ?load_current_spec;
  cbn [readied holding observed self settings threadpool trace
       _nvidia_fx _provider with_provider_ready with_nvidia_fx];
  split_result (_provider (self w)) as [| | |?] eqn Hp;
  cbv beta iota zeta;
  split_result (fx_construct e) as [[?|]|] eqn Hc;
  cbv beta iota zeta;
  split_result (_nvidia_fx (self w)) as [?|] eqn Hfx;
  split_result (fx_destruct e) as [?|] eqn Hd;
  cbv beta iota zeta; try done;
  split_result (fx_set_mode e) as [[?|]|] eqn Hm;
  cbn;
  try match goal with E : _provider (self w) = _ |- _ => rewrite E end;
  cbn; try done.

(** What the locked part of the task leaves alone, however it ends. *)
Lemma task_switch_provider_locked_frame e spd w w' :
  outcome (task_switch_provider_locked e spd w) = Some w' ->
  exists evs,
    trace w' = trace w ++ evs
    /\ threadpool w' = threadpool w
    /\ settings w' = settings w
    /\ _size (self w') = _size (self w)
    /\ _provider (self w') = _provider (self w)
    /\ _provider_ui (self w') = _provider_ui (self w)
    /\ _provider_task (self w') = _provider_task (self w)
    /\ _effect (self w') = _effect (self w)
    /\ _output_color (self w') = _output_color (self w)
    /\ _output_alpha (self w') = _output_alpha (self w)
    /\ _dirty (self w') = _dirty (self w)
    /\ occurrences is_push evs = 0
    /\ (_provider_ready (self w') = true
        \/ _provider_ready (self w') = _provider_ready (self w)).
Proof.
  task_cases e spd w; intros [= <-]; eexists;
    (split; [cbn; rewrite <- ?app_assoc; cbn; try reflexivity;
             try (rewrite app_nil_r; reflexivity)|]);
    cbn; repeat match goal with |- _ /\ _ => split end; try done; auto.
Qed.


(** ** What the other methods leave to the coordinator *)

Section Frames.

Lemma same_coordination_refl w : same_coordination w w.
Proof. by repeat split. Qed.

Lemma same_coordination_coordinated w w' :
  same_coordination w w' -> coordinated w -> coordinated w'.
Proof. intros (A1 & _ & A3 & A4 & _). by apply coordinated_view. Qed.

Lemma same_coordination_pristine w w' :
  same_coordination w w' -> pristine w -> pristine w'.
Proof.
  intros (A1 & _ & _ & A4 & A5) H. unfold pristine. rewrite A1, A4, A5. exact H.
Qed.

Lemma nvvfxgs_update_frame e data w w' :
  outcome (nvvfxgs_update e data w) = Some w' -> same_coordination w w'.
Proof.
  unfold nvvfxgs_update. unfold_M. cbn.
  destruct (_nvidia_fx (self w)); cbn; [destruct (fx_set_mode e); cbn|];
    intros [= <-]; by repeat split.
Qed.

Lemma nvvfxgs_unload_frame e w w' :
  outcome (nvvfxgs_unload e w) = Some w' -> same_coordination w w'.
Proof.
  unfold nvvfxgs_unload. unfold_M. cbn.
  destruct (_nvidia_fx (self w)); cbn; [destruct (fx_destruct e); cbn|];
    intros [= <-]; by repeat split.
Qed.

Lemma video_tick_frame e w w' :
  outcome (video_tick e w) = Some w' -> same_coordination w w'.
Proof.
  destruct (video_tick_spec e w)
    as (w1 & -> & _ & Hp & Hr & Ht & _ & _ & _ & _ & Hq & Hs).
  intros [= <-]. by repeat split.
Qed.

Lemma video_render_frame e w w' :
  outcome (video_render e w) = Some w' -> same_coordination w w'.
Proof.
  unfold video_render, refresh, capture, process, nvvfxgs_process.
  unfold_M. cbn.
  destruct (skip_filter e w); [intros [= <-]; by repeat split|].
  destruct (_dirty (self w)); cbn.
  2:{ rewrite composite_spec. destruct (_effect (self w)); [|done].
      intros [= <-]. by repeat split. }
  destruct (process_filter_begin e); cbn;
    [|intros [= <-]; by repeat split].
  destruct (_provider (self w)) eqn:Hp; cbn;
    try (rewrite composite_spec; cbn; destruct (_effect (self w)); [|done];
         intros [= <-]; by repeat split).
  destruct (_nvidia_fx (self w)); cbn;
    try (rewrite composite_spec; cbn; destruct (_effect (self w)); [|done];
         intros [= <-]; by repeat split).
  destruct (fx_process e); cbn;
    try (rewrite composite_spec; cbn; destruct (_effect (self w)); [|done]);
    intros [= <-]; by repeat split.
Qed.

(** [update] either finds the requested kind current, or goes through
    [switch_provider]; the rest of it only talks to the adapter. *)
Lemma update_frame e data w w' :
  outcome (update e data w) = Some w' ->
  ((requested e data = _provider (self w)
    \/ is_enumerator (_provider (self w)) && is_enumerator (requested e data) = false)
   /\ same_coordination w w')
  \/ (requested e data <> _provider (self w)
      /\ exists w1,
           switch_provider (requested e data)
             {| self := with_provider_ui (requested e data) (self w);
                threadpool := threadpool w; settings := settings w;
                trace := trace w |} = Ok tt w1
           /\ same_coordination w1 w').
Proof.
  unfold update. fold (requested e data).
  unfold mbind at 1. unfold M_bind, bind at 1, get at 1.
  unfold mbind at 1. unfold M_bind, bind at 1.
  destruct (decide (requested e data = _provider (self w))) as [Heq|Hne].
  - rewrite bool_decide_false by (intros H; by apply H).
    cbn [when]. unfold ret at 1.
    unfold mbind, M_bind, bind, get, when.
    intros H. left. split; [by left|].
    destruct (_provider_ready (self w)); [|injection H as <-; apply same_coordination_refl].
    destruct (_provider (self w));
      try (injection H as <-; apply same_coordination_refl).
    by apply nvvfxgs_update_frame in H.
  - rewrite bool_decide_true by done. cbn [when].
    unfold mbind at 1. unfold M_bind, bind at 1.
    unfold set_provider_ui at 1. unfold modify_self, modify.
    cbn [self threadpool settings trace].
    intros H.
    destruct (switch_provider _ _) as [[] w1|ex w1| | |] eqn:Hsw; try done.
    + right. split; [done|]. exists w1. split; [done|].
      revert H. unfold mbind, M_bind, bind, get, when.
      intros H.
      destruct (_provider_ready (self w1));
        [|injection H as <-; apply same_coordination_refl].
      destruct (_provider (self w1));
        try (injection H as <-; apply same_coordination_refl).
      by apply nvvfxgs_update_frame in H.
    + left. apply switch_provider_throws in Hsw as (_ & Hun & _ & ->).
      injection H as <-. split; [by right|]. by repeat split.
Qed.

End Frames.

(** ** Invariants of the reachable worlds *)

Section Invariants.

Lemma switch_provider_same w :
  switch_provider (_provider (self w)) w = Ok tt w.
Proof. unfold switch_provider. unfold_M. cbn. by rewrite decide_True. Qed.

Lemma switch_provider_coordinated provider w w' :
  coordinated w ->
  switch_provider provider w = Ok tt w' ->
  coordinated w'.
Proof.
  intros Hc. destruct (decide (provider = _provider (self w))) as [->|Hne].
  - rewrite switch_provider_same. by intros [= <-].
  - switch_named Hne.
    destruct (dequeue_provider_task _) as [[] w1| | | |] eqn:Hd; try done.
    intros [= <-].
    apply dequeue_provider_task_idle in Hd as (Hi & _); [|apply Hc].
    by apply spawned_coordinated.
Qed.

Lemma update_coordinated e data w w' :
  coordinated w -> outcome (update e data w) = Some w' -> coordinated w'.
Proof.
  intros Hc H. apply update_frame in H as [[_ Hs]|(_ & w1 & Hsw & Hs)].
  - by eapply same_coordination_coordinated.
  - eapply same_coordination_coordinated; [exact Hs|].
    eapply switch_provider_coordinated; [|exact Hsw].
    eapply coordinated_view; [| | |exact Hc]; done.
Qed.

Lemma step_coordinated a w w' :
  coordinated w -> step a w = Some w' -> coordinated w'.
Proof.
  intros Hc. destruct a as [e data|e|e|id|e id]; cbn.
  - unfold mbind, M_bind, bind, store_settings, modify.
    apply update_coordinated. eapply coordinated_view; [| | |exact Hc]; done.
  - intros H. eapply same_coordination_coordinated; [|exact Hc].
    by eapply video_tick_frame.
  - intros H. eapply same_coordination_coordinated; [|exact Hc].
    by eapply video_render_frame.
  - destruct (threadpool w !! id) as [t|] eqn:Hl; [|done].
    destruct (decide (status t = Queued)) as [Hq|]; [|done].
    unfold task_switch_provider_begin. unfold_M. cbn. intros [= <-].
    destruct Hc as [Ho Hu]. split.
    + intros i u. cbn. rewrite list_lookup_insert_Some.
      intros [(<- & _ & _)|(_ & Hi)] Hf.
      * apply (Ho id t Hl). unfold in_flight. by rewrite Hq.
      * by apply (Ho i u Hi).
    + by intros i u.
  - destruct (threadpool w !! id) as [t|] eqn:Hl; [|done].
    destruct (decide (status t = Running)) as [Hr|]; [|done].
    destruct (outcome (task_switch_provider_locked e (spd_provider t) w))
      as [w1|] eqn:Hrun; [|done].
    apply task_switch_provider_locked_frame in Hrun
      as (evs & _ & Hq & _ & _ & _ & _ & Ht & _).
    cbn. intros [= <-].
    destruct Hc as [Ho Hu].
    assert (Hid : _provider_task (self w) = Some id).
    { apply (Ho id t Hl). unfold in_flight. by rewrite Hr. }
    split.
    + intros i u. cbn. rewrite Hq, list_lookup_insert_Some.
      intros [(<- & <- & _)|(_ & Hi)] Hf; [done|].
      rewrite Ht. by apply (Ho i u Hi).
    + intros i u. cbn. rewrite Hq, list_lookup_insert_Some.
      intros [(<- & <- & _)|(Hne & Hi)] Hs; [done|].
      exfalso. apply Hne.
      assert (_provider_task (self w) = Some i) as E.
      { apply (Ho i u Hi). unfold in_flight. by rewrite Hs. }
      congruence.
Qed.

Lemma constructor_frame e data stored w :
  outcome (constructor e data (blank stored)) = Some w ->
  exists w0 : world,
    same_coordination (blank stored) w0
    /\ match data with
       | Some d => outcome (update e d w0) = Some w
       | None => w = w0
       end.
Proof.
  unfold constructor, load.
  destruct (effect_file e) as [fx|]; unfold_M; cbn.
  - destruct data as [d|].
    + intros H. eexists. split; [|exact H]. by repeat split.
    + intros [= <-]. eexists. split; [|reflexivity]. by repeat split.
  - destruct data as [d|].
    + intros H. eexists. split; [|exact H]. by repeat split.
    + intros [= <-]. eexists. split; [|reflexivity]. by repeat split.
Qed.

Lemma blank_coordinated stored : coordinated (blank stored).
Proof. split; intros i t; cbn; by rewrite lookup_nil. Qed.

Lemma reachable_coordinated w : reachable w -> coordinated w.
Proof.
  induction 1 as [e data stored w H|a w w' _ IH H].
  - apply (f_equal outcome) in H. cbn in H.
    apply constructor_frame in H as (w0 & Hs & H).
    assert (coordinated w0) as Hc
      by (eapply same_coordination_coordinated; [exact Hs|apply blank_coordinated]).
    destruct data as [d|]; [|by subst].
    by eapply update_coordinated.
  - by eapply step_coordinated.
Qed.

Lemma reachable_steps l w w' :
  reachable w -> steps l w = Some w' -> reachable w'.
Proof.
  revert w. induction l as [|a l IH]; intros w Hr; cbn.
  - by intros [= <-].
  - destruct (step a w) as [w1|] eqn:Hs; [|done].
    apply IH. by eapply reachable_step.
Qed.

(** [pristine] along the steps that do not ask for [INVALID]. *)
Lemma update_pristine e data w w' :
  requested e data <> INVALID ->
  pristine w -> outcome (update e data w) = Some w' -> pristine w'.
Proof.
  intros Hreq Hp H. apply update_frame in H as [[_ Hs]|(Hne & w1 & Hsw & Hs)].
  - by eapply same_coordination_pristine.
  - eapply same_coordination_pristine; [exact Hs|].
    switch_named_in Hne Hsw.
    destruct (dequeue_provider_task _) as [[] w2| | | |]; try done.
    injection Hsw as <-. intros Hi. cbn in Hi. done.
Qed.

Lemma step_pristine a w w' :
  ~ requests_invalid a -> pristine w -> step a w = Some w' -> pristine w'.
Proof.
  intros Hreq Hp. destruct a as [e data|e|e|id|e id]; cbn.
  - unfold mbind, M_bind, bind, store_settings, modify.
    apply update_pristine; [exact Hreq|exact Hp].
  - intros H. eapply same_coordination_pristine; [|exact Hp].
    by eapply video_tick_frame.
  - intros H. eapply same_coordination_pristine; [|exact Hp].
    by eapply video_render_frame.
  - destruct (threadpool w !! id) as [t|] eqn:Hl; [|done].
    destruct (decide (status t = Queued)); [|done].
    unfold task_switch_provider_begin. unfold_M. cbn. intros [= <-].
    intros Hi. cbn in Hi. destruct (Hp Hi) as [_ Hq].
    by rewrite Hq, lookup_nil in Hl.
  - destruct (threadpool w !! id) as [t|] eqn:Hl; [|done].
    destruct (decide (status t = Running)); [|done].
    destruct (outcome (task_switch_provider_locked e (spd_provider t) w))
      as [w1|] eqn:Hrun; [|done].
    apply task_switch_provider_locked_frame in Hrun
      as (evs & _ & _ & _ & _ & Hpr & _).
    cbn. intros [= <-].
    intros Hi. cbn in Hi. rewrite Hpr in Hi. destruct (Hp Hi) as [_ Hq].
    by rewrite Hq, lookup_nil in Hl.
Qed.

Lemma pristine_invalid_not_ready w : pristine w -> invalid_not_ready w.
Proof. intros H Hi. by destruct (H Hi). Qed.

Lemma constructor_pristine e data stored w :
  outcome (constructor e data (blank stored)) = Some w -> pristine w.
Proof.
  intros H. apply constructor_frame in H as (w0 & Hs & H).
  assert (pristine w0) as Hp
    by (eapply same_coordination_pristine; [exact Hs|by intros _]).
  destruct data as [d|]; [|by subst].
  apply update_frame in H as [[_ Hs']|(Hne & w1 & Hsw & Hs')].
  - by eapply same_coordination_pristine.
  - eapply same_coordination_pristine; [exact Hs'|].
    switch_named_in Hne Hsw.
    destruct (dequeue_provider_task _) as [[] w2| | | |] eqn:Hd; try done.
    injection Hsw as <-. intros Hi. cbn in Hi.
    (* the kind asked for is not the current one, INVALID *)
    exfalso. apply Hne. cbn. destruct Hs as (_ & _ & _ & _ & ->). by cbn.
Qed.

End Invariants.

(** ** Claims on the switch coordinator *)

Lemma created_reachable : reachable Example.created.
Proof.
  apply (reachable_created Example.fine (Some (Example.use AUTOMATIC 1))
           (Example.use AUTOMATIC 1)).
  reflexivity.
Defined.

Lemma loaded_reachable : reachable Example.loaded.
Proof.
  apply (reachable_steps [Worker_begin 0; Worker_finish Example.fine 0;
                          Host_video_tick Example.fine] Example.created);
    [exact created_reachable|reflexivity].
Defined.

Lemma begun_reachable : reachable Example.begun.
Proof.
  apply (reachable_steps [Worker_begin 0] Example.created);
    [exact created_reachable|reflexivity].
Defined.

Lemma dequeue_provider_task_keeps w w1 :
  dequeue_provider_task w = Ok tt w1 ->
  _provider_ready (self w1) = _provider_ready (self w)
  /\ _provider (self w1) = _provider (self w)
  /\ settings w1 = settings w.
Proof.
  rewrite dequeue_provider_task_spec. repeat case_match; try done;
    intros [= <-]; done.
Qed.

(** C1, as the code has it. A switch request for a kind other than
    [_provider] records the kind at once and queues the task, but leaves
    [_provider_ready] as it was. [_provider_ready] is set to false by the
    first statement of the switch task, before the task takes the lock and
    before any call to the adapter. From then until the task has ended the
    provider is not ready, and every render is skipped. *)
Theorem switch_provider_defers_unready :
  (forall w provider w',
      provider <> _provider (self w) ->
      switch_provider provider w = Ok tt w' ->
      _provider_ready (self w') = _provider_ready (self w)
      /\ _provider (self w') = provider
      /\ exists id,
           _provider_task (self w') = Some id
           /\ threadpool w' !! id =
                Some {| spd_provider := _provider (self w); status := Queued |})
  /\ (forall e spd w,
        exists w0,
          task_switch_provider_begin w = Ok tt w0
          /\ _provider_ready (self w0) = false
          /\ trace w0 = trace w
          /\ task_switch_provider e spd w = task_switch_provider_locked e spd w0)
  /\ (forall w id t,
        reachable w -> threadpool w !! id = Some t -> status t = Running ->
        _provider_ready (self w) = false
        /\ forall e, video_render e w = Ok tt (observed w [Skip_video_filter])).
Proof.
  split; [|split].
  - intros w provider w' Hne. switch_named Hne.
    destruct (dequeue_provider_task _) as [[] w1| | | |] eqn:Hd; try done.
    intros [= <-]. apply dequeue_provider_task_keeps in Hd as (Hr & Hp & _).
    cbn in Hr, Hp. cbn. rewrite Hr, Hp. repeat split.
    exists (length (threadpool w1)). split; [done|].
    by rewrite lookup_app_r, Nat.sub_diag by lia.
  - intros e spd w. eexists. split; [reflexivity|]. by repeat split.
  - intros w id t Hr Hl Hs.
    destruct (reachable_coordinated w Hr) as [_ Hu].
    pose proof (Hu id t Hl Hs) as Hready. split; [done|].
    intros e. unfold video_render. unfold_M. cbn.
    rewrite (skip_filter_true e w); [done|by left].
Qed.

Lemma switch_provider_defers_unready_witness :
  _provider_ready (self Example.begun) = false
  /\ video_render Example.fine Example.begun
     = Ok tt (observed Example.begun [Skip_video_filter]).
Proof.
  destruct switch_provider_defers_unready as (_ & _ & H).
  destruct (H Example.begun 0 {| spd_provider := INVALID; status := Running |}
              begun_reachable eq_refl eq_refl) as [H1 H2].
  split; [exact H1|exact (H2 Example.fine)].
Defined.

(** C1 as it is written fails: a switch is requested for a kind other than
    the current one, [switch_provider] returns, and [_provider_ready] is
    still true while the task waits in the queue. A second request made
    before a worker picks the task up leaves it true as well, and a render
    made then calls [process] on the adapter the pending task will replace. *)
Lemma switch_provider_leaves_ready_true :
  _provider (self Example.loaded) = NVIDIA_GREENSCREEN
  /\ _provider_ready (self Example.loaded) = true
  /\ switch_provider INVALID Example.loaded = Ok tt Example.away
  /\ _provider (self Example.away) = INVALID
  /\ _provider_ready (self Example.away) = true
  /\ threadpool Example.away =
       [{| spd_provider := INVALID; status := Completed |};
        {| spd_provider := NVIDIA_GREENSCREEN; status := Queued |}]
  /\ switch_provider NVIDIA_GREENSCREEN Example.away = Ok tt Example.back
  /\ _provider_ready (self Example.back) = true
  /\ threadpool Example.back =
       [{| spd_provider := INVALID; status := Completed |};
        {| spd_provider := NVIDIA_GREENSCREEN; status := Dequeued |};
        {| spd_provider := INVALID; status := Queued |}]
  /\ video_render Example.fine Example.back = Ok tt Example.back_rendered
  /\ new_events Example.back Example.back_rendered =
       capture_events (1280, 720)%N ++ [Nv_process 7]
       ++ composite_events Example.fx 9 8 (1280, 720)%N.
Proof. repeat split; vm_compute; reflexivity. Qed.

(** C2. In every world the instance can reach, every task in flight is the
    one [_provider_task] holds, so at most one is in flight. A switch
    request first takes the task it holds out of the queue and waits for it;
    at that point no task is in flight; only then does it push the new task,
    which is then the one task in flight. *)
Theorem at_most_one_switch_task :
  (forall w, reachable w -> owns_tasks_in_flight w /\ tasks_in_flight w <= 1)
  /\ (forall w provider w',
        owns_tasks_in_flight w ->
        provider <> _provider (self w) ->
        switch_provider provider w = Ok tt w' ->
        exists w1,
          dequeue_provider_task
            (observed w [LogInfo_switching (_provider (self w)) provider]) = Ok tt w1
          /\ new_events w w1 =
               LogInfo_switching (_provider (self w)) provider
               :: match _provider_task (self w) with
                  | Some id => [Threadpool_pop id; Await_completion id]
                  | None => []
                  end
          /\ tasks_in_flight w1 = 0
          /\ new_events w1 w' = [Threadpool_push (length (threadpool w1))]
          /\ tasks_in_flight w' = 1
          /\ owns_tasks_in_flight w').
Proof.
  split.
  - intros w Hr. destruct (reachable_coordinated w Hr) as [Ho _].
    split; [done|by apply owns_at_most_one].
  - intros w provider w' Ho Hne. switch_named Hne.
    destruct (dequeue_provider_task _) as [[] w1| | | |] eqn:Hd; try done.
    intros [= <-]. exists w1. split; [done|].
    apply dequeue_provider_task_idle in Hd as (Hi & _ & _ & _ & Hev); [|done].
    destruct (spawned_coordinated provider w1 Hi) as [[Ho' _] Hone].
    split; [|split; [by apply idle_tasks_in_flight|split; [|done]]].
    + unfold new_events. rewrite Hev. cbn. by rewrite <- app_assoc, drop_app_length.
    + unfold new_events, spawned. cbn. by rewrite drop_app_length.
Qed.

Lemma at_most_one_switch_task_witness :
  tasks_in_flight Example.loaded <= 1
  /\ tasks_in_flight Example.away = 1.
Proof.
  destruct at_most_one_switch_task as [H1 H2].
  destruct (H1 Example.loaded loaded_reachable) as [Ho Hle].
  split; [exact Hle|].
  destruct (H2 Example.loaded INVALID Example.away Ho) as (w1 & _ & _ & _ & _ & H & _);
    [discriminate|reflexivity|exact H].
Defined.






(** How the locked part of the task ends, entered with the provider not
    ready: which line it logs last, and what that says about its steps. *)
Lemma task_switch_provider_locked_ends e spd w w' :
  _provider_ready (self w) = false ->
  outcome (task_switch_provider_locked e spd w) = Some w' ->
  exists evs,
    trace w' = trace w ++ evs
    /\ (_provider_ready (self w') = true <->
        last evs = Some (LogInfo_switched spd (_provider (self w))))
    /\ (_provider_ready (self w') = true ->
        task_switch_provider_locked e spd w = Ok tt w'
        /\ (forall i msg, evs !! i <> Some (LogError_switch msg))
        /\ (_provider (self w) = NVIDIA_GREENSCREEN ->
            fx_construct e = None /\ fx_set_mode e = None)
        /\ (is_Some (_nvidia_fx (self w)) ->
            spd = NVIDIA_GREENSCREEN \/ _provider (self w) = NVIDIA_GREENSCREEN ->
            fx_destruct e = None))
    /\ (_provider_ready (self w') = false ->
        (exists msg,
            task_switch_provider_locked e spd w = Ok tt w'
            /\ last evs = Some (LogError_switch msg))
        \/ (task_switch_provider_locked e spd w = Throw Other w'
            /\ forall i msg, evs !! i <> Some (LogError_switch msg))).
Proof.
  intros Hr.
  destruct (task_switch_provider_locked e spd w) as [[] v|x v| | |] eqn:H;
    try done; cbn; intros [= <-]; revert H;
    task_cases e spd w; first [intros [= <- <-]|intros [= <-]]; eexists;
    (split; [cbn; rewrite <- ?app_assoc; cbn; try reflexivity;
             try (rewrite app_nil_r; reflexivity)|]);
    cbn; rewrite ?Hr;
    repeat match goal with |- _ /\ _ => split end; try done;
    try (intros ? [?|?]; done);
    try (intros _; solve [ left; by eexists
                         | right; split; [done|small_list] ]);
    try (small_list; fail);
    try (intros _; repeat match goal with |- _ /\ _ => split end;
         solve [done | small_list | intros ? [?|?]; done]).
Qed.

(** C4, as the code has it. When the load or the setting of the mode throws
    a [std::exception], the task logs the error, leaves [_provider_ready]
    false and returns. [_provider_ready] is true after the task exactly when
    its last line is the log line of a completed switch, which requires
    that every step succeeded. The task pushes no task, and when it has
    ended no task is in flight: nothing retries. Two failures are not
    logged: an exception that is no [std::exception] passes the handler of
    line 453 and leaves the task, with [_provider_ready] false; and the
    unload cannot report a failure, an exception in the adapter's
    destructor ends the program. *)
Theorem task_switch_provider_failure :
  (forall e spd w ex,
      _provider (self w) = NVIDIA_GREENSCREEN ->
      fx_destruct e = None \/ _nvidia_fx (self w) = None ->
      fx_construct e = Some (Std ex)
      \/ (fx_construct e = None /\ fx_set_mode e = Some (Std ex)) ->
      exists w',
        task_switch_provider e spd w = Ok tt w'
        /\ _provider_ready (self w') = false
        /\ last (new_events w w') = Some (LogError_switch (what ex)))
  /\ (forall e spd w w',
        outcome (task_switch_provider e spd w) = Some w' ->
        threadpool w' = threadpool w
        /\ _provider_task (self w') = _provider_task (self w)
        /\ occurrences is_push (new_events w w') = 0
        /\ (_provider_ready (self w') = true <->
            last (new_events w w')
            = Some (LogInfo_switched spd (_provider (self w))))
        /\ (_provider_ready (self w') = true ->
            task_switch_provider e spd w = Ok tt w'
            /\ (forall i msg, new_events w w' !! i <> Some (LogError_switch msg))
            /\ (_provider (self w) = NVIDIA_GREENSCREEN ->
                fx_construct e = None /\ fx_set_mode e = None)
            /\ (is_Some (_nvidia_fx (self w)) ->
                spd = NVIDIA_GREENSCREEN
                \/ _provider (self w) = NVIDIA_GREENSCREEN ->
                fx_destruct e = None))
        /\ (_provider_ready (self w') = false ->
            (exists msg,
                task_switch_provider e spd w = Ok tt w'
                /\ last (new_events w w') = Some (LogError_switch msg))
            \/ (task_switch_provider e spd w = Throw Other w'
                /\ forall i msg,
                     new_events w w' !! i <> Some (LogError_switch msg))))
  /\ (forall e spd w,
        _provider (self w) = NVIDIA_GREENSCREEN ->
        fx_destruct e = None \/ _nvidia_fx (self w) = None ->
        fx_construct e = Some Other
        \/ (fx_construct e = None /\ fx_set_mode e = Some Other) ->
        exists w',
          task_switch_provider e spd w = Throw Other w'
          /\ _provider_ready (self w') = false
          /\ forall i msg, new_events w w' !! i <> Some (LogError_switch msg))
  /\ (forall e w,
        is_Some (_nvidia_fx (self w)) -> fx_destruct e <> None ->
        task_switch_provider e NVIDIA_GREENSCREEN w = Terminate)
  /\ (forall e id w w',
        reachable w -> step (Worker_finish e id) w = Some w' -> idle w').
Proof.
  repeat match goal with |- _ /\ _ => split end.
  - intros e spd w ex Hp0 Hno Hex.
    destruct (task_switch_provider e spd w) as [[] w'|x w'| | |] eqn:H;
      revert H; task_cases e spd w; try (intros; exfalso; intuition congruence);
      intros [= <-]; eexists; (split; [reflexivity|]); (split; [done|]);
      unfold new_events; cbn; rewrite <- ?app_assoc; cbn;
      rewrite ?drop_app_length; cbn;
      destruct Hex as [?|[? ?]]; congruence.
  - intros e spd w w' H.
    pose proof H as H0. rewrite task_switch_provider_unfold in H0.
    apply task_switch_provider_locked_frame in H0
      as (evs & Htr & Hq & _ & _ & _ & _ & Ht & _ & _ & _ & _ & Hpush & _).
    pose proof H as H1. rewrite task_switch_provider_unfold in H1.
    apply task_switch_provider_locked_ends in H1
      as (evs' & Htr' & Hiff & Hok & Hko); [|done].
    assert (evs' = evs) as ->.
    { rewrite Htr in Htr'. symmetry. by eapply app_inv_head. }
    assert (new_events w w' = evs) as ->.
    { unfold new_events. rewrite Htr. cbn. apply drop_app_length. }
    rewrite task_switch_provider_unfold. done.
  - intros e spd w Hp0 Hno Hex.
    destruct (task_switch_provider e spd w) as [[] w'|x w'| | |] eqn:H;
      revert H; task_cases e spd w; try (intros; exfalso; intuition congruence);
      intros [= <- <-]; eexists; (split; [reflexivity|]); (split; [done|]);
      unfold new_events; cbn; rewrite <- ?app_assoc; cbn;
      rewrite ?drop_app_length; cbn; small_list.
  - intros e w [g Hg] Hd0.
    rewrite task_switch_provider_unfold, task_switch_provider_locked_spec,
      unload_previous_spec.
    cbn [readied self _nvidia_fx with_provider_ready]. rewrite Hg.
    by destruct (fx_destruct e).
  - intros e id w w' Hr. cbn.
    destruct (threadpool w !! id) as [t|] eqn:Hl; [|done].
    destruct (decide (status t = Running)) as [Hs|]; [|done].
    destruct (outcome (task_switch_provider_locked e (spd_provider t) w))
      as [w1|] eqn:Hrun; [|done].
    apply task_switch_provider_locked_frame in Hrun as (evs & _ & Hq & _).
    cbn. intros [= <-].
    destruct (reachable_coordinated w Hr) as [Ho _].
    assert (Hid : _provider_task (self w) = Some id).
    { apply (Ho id t Hl). unfold in_flight. by rewrite Hs. }
    intros i u. cbn. rewrite Hq, list_lookup_insert_Some.
    intros [(_ & <- & _)|(Hne & Hi)]; [done|].
    destruct (in_flight u) eqn:Hu; [|done].
    pose proof (Ho i u Hi Hu). congruence.
Qed.

Lemma task_switch_provider_failure_witness :
  exists w',
    task_switch_provider
      (Example.with_construct (Some Example.boom) Example.fine) INVALID
      Example.created = Ok tt w'
    /\ _provider_ready (self w') = false
    /\ last (new_events Example.created w') =
         Some (LogError_switch "NvVFX_Run failed").
Proof.
  destruct task_switch_provider_failure as [H _].
  exact (H (Example.with_construct (Some Example.boom) Example.fine) INVALID
           Example.created (std_exception "NvVFX_Run failed")
           eq_refl (or_introl eq_refl) (or_introl eq_refl)).
Defined.

(** C4 as it is written fails for two of the failures it names. When
    [set_mode] throws something that is no [std::exception], the handler of
    line 453 does not take it: the exception leaves the task and nothing is
    logged. When the adapter's destructor throws during the unload, the
    program ends there: [reset()] is [noexcept]. *)
Lemma task_switch_provider_unlogged_failure :
  task_switch_provider (Example.with_set_mode (Some Other) Example.fine) INVALID
    Example.created = Throw Other Example.leaked
  /\ new_events Example.created Example.leaked
     = [Nv_load; Fx_construct; Nv_set_mode 1]
  /\ _provider_ready (self Example.leaked) = false
  /\ _nvidia_fx (self Example.loaded) = Some {| fx_mode := Some 1%Z |}
  /\ task_switch_provider (Example.with_destruct (Some Example.boom) Example.fine)
       NVIDIA_GREENSCREEN Example.loaded = Terminate.
Proof. repeat split; vm_compute; reflexivity. Qed.

(** ** The invariant on [INVALID] *)

(** The destructor by cases: nothing in it throws, so that being
    [noexcept] changes nothing. *)
Lemma destructor_spec e w :
  destructor e w =
    match dequeue_provider_task w with
    | Ok _ w1 =>
        match _nvidia_fx (self w1) with
        | None => Ok tt (observed w1 (destructor_events w1))
        | Some _ =>
            match fx_destruct e with
            | Some _ => Terminate
            | None => Ok tt (observed (holding None w1) (destructor_events w1))
            end
        end
    | Throw _ _ => Terminate
    | Hang => Hang
    | Fault => Fault
    | Terminate => Terminate
    end.
Proof.
  unfold destructor, noexcept, mbind, M_bind, bind, get.
  destruct (dequeue_provider_task w) as [[] w1| | | |]; try done.
  unfold destructor_events.
  destruct (_provider (self w1)) eqn:Hp; cbn;
    rewrite ?nvvfxgs_unload_spec;
    unfold destroy_members, release_adapter; unfold_M; cbn;
    destruct (_nvidia_fx (self w1)) eqn:Hfx; cbn; rewrite ?Hfx;
    destruct (fx_destruct e); cbn;
    unfold observed, holding; cbn; rewrite <- ?app_assoc; cbn;
    rewrite ?app_nil_r; try done; by destruct w1.
Qed.

Lemma destructor_frame e w w' :
  outcome (destructor e w) = Some w' ->
  _provider (self w') = _provider (self w)
  /\ _provider_ready (self w') = _provider_ready (self w).
Proof.
  rewrite destructor_spec.
  destruct (dequeue_provider_task w) as [[] w1|ex w1| | |] eqn:Hd; try done.
  apply dequeue_provider_task_keeps in Hd as (Hr & Hp & _).
  rewrite <- Hr, <- Hp.
  destruct (_nvidia_fx (self w1)); [destruct (fx_destruct e)|]; try done;
    by intros [= <-].
Qed.

Lemma steps_pristine l w w' :
  Forall (fun a => ~ requests_invalid a) l ->
  pristine w -> steps l w = Some w' -> pristine w'.
Proof.
  intros Hl. revert w. induction Hl as [|a l Ha _ IH]; intros w Hp; cbn.
  - by intros [= <-].
  - destruct (step a w) as [w1|] eqn:Hs; [|done].
    apply IH. by eapply step_pristine.
Qed.

(** C8, as the code has it. [_provider = INVALID] implies that the provider
    is not ready in the initial state, after the constructor, and in every
    world reached from there as long as no [update] asks for [INVALID].
    The tick, the render, the destructor and the first statement of the
    task keep the invariant from any world; [switch_provider] and [update]
    keep it when the kind asked for is not [INVALID]; the task keeps it when
    [_provider] is not [INVALID]. *)
Theorem invalid_not_ready_unless_requested :
  (forall stored, invalid_not_ready (blank stored))
  /\ (forall e data stored w,
        outcome (constructor e data (blank stored)) = Some w ->
        invalid_not_ready w)
  /\ (forall e data stored w0 l w,
        outcome (constructor e data (blank stored)) = Some w0 ->
        Forall (fun a => ~ requests_invalid a) l ->
        steps l w0 = Some w ->
        invalid_not_ready w)
  /\ (forall e w w',
        invalid_not_ready w ->
        outcome (video_tick e w) = Some w'
        \/ outcome (video_render e w) = Some w'
        \/ outcome (destructor e w) = Some w'
        \/ task_switch_provider_begin w = Ok tt w' ->
        invalid_not_ready w')
  /\ (forall provider w w',
        provider <> INVALID ->
        invalid_not_ready w ->
        switch_provider provider w = Ok tt w' ->
        invalid_not_ready w')
  /\ (forall e data w w',
        requested e data <> INVALID ->
        invalid_not_ready w ->
        outcome (update e data w) = Some w' ->
        invalid_not_ready w')
  /\ (forall e spd w w',
        _provider (self w) <> INVALID ->
        task_switch_provider e spd w = Ok tt w' ->
        invalid_not_ready w').
Proof.
  repeat match goal with |- _ /\ _ => split end.
  - by intros stored _.
  - intros e data stored w H.
    by apply pristine_invalid_not_ready, (constructor_pristine e data stored).
  - intros e data stored w0 l w H Hl Hs.
    apply pristine_invalid_not_ready. eapply steps_pristine; [exact Hl| |exact Hs].
    by apply (constructor_pristine e data stored).
  - intros e w w' Hi [H|[H|[H|H]]]; unfold invalid_not_ready in *.
    + apply video_tick_frame in H as (_ & _ & _ & -> & ->). exact Hi.
    + apply video_render_frame in H as (_ & _ & _ & -> & ->). exact Hi.
    + apply destructor_frame in H as (-> & ->). exact Hi.
    + revert H. unfold task_switch_provider_begin. unfold_M. by intros [= <-].
  - intros provider w w' Hne Hi.
    destruct (decide (provider = _provider (self w))) as [->|Hd].
    + rewrite switch_provider_same. by intros [= <-].
    + switch_named Hd.
      destruct (dequeue_provider_task _) as [[] w1| | | |]; try done.
      intros [= <-] Hp. cbn in Hp. done.
  - intros e data w w' Hne Hi H. unfold invalid_not_ready in *.
    apply update_frame in H as [[_ Hs]|(Hd & w1 & Hsw & Hs)].
    + destruct Hs as (_ & _ & _ & -> & ->). exact Hi.
    + destruct Hs as (_ & _ & _ & _ & ->).
      switch_named_in Hd Hsw.
      destruct (dequeue_provider_task _) as [[] w2| | | |]; try done.
      injection Hsw as <-. cbn. done.
  - intros e spd w w' Hne H Hi.
    apply (f_equal outcome) in H. rewrite task_switch_provider_unfold in H.
    apply task_switch_provider_locked_frame in H
      as (evs & _ & _ & _ & _ & Hp & _).
    cbn in Hp. congruence.
Qed.

Lemma invalid_not_ready_unless_requested_witness :
  invalid_not_ready Example.loaded /\ invalid_not_ready Example.created.
Proof.
  destruct invalid_not_ready_unless_requested as (_ & H2 & H3 & _).
  split.
  - apply (H3 Example.fine (Some (Example.use AUTOMATIC 1))
             (Example.use AUTOMATIC 1) Example.created
             [Worker_begin 0; Worker_finish Example.fine 0;
              Host_video_tick Example.fine]).
    + reflexivity.
    + repeat constructor; simpl; tauto.
    + reflexivity.
  - apply (H2 Example.fine (Some (Example.use AUTOMATIC 1))
             (Example.use AUTOMATIC 1)).
    reflexivity.
Defined.

(** C8 as it is written fails: settings that name the kind [INVALID] make
    [update] switch to it; [_provider] is [INVALID] at once while
    [_provider_ready] is still true, and the task that follows, having
    nothing to load, sets [_provider_ready] to true again. *)
Lemma invalid_provider_ready :
  reachable Example.asked_invalid
  /\ step (Host_update Example.fine (Example.use INVALID 1)) Example.loaded
     = Some Example.asked_invalid
  /\ _provider (self Example.asked_invalid) = INVALID
  /\ _provider_ready (self Example.asked_invalid) = true
  /\ reachable Example.settled_invalid
  /\ steps [Worker_begin 1; Worker_finish Example.fine 1] Example.asked_invalid
     = Some Example.settled_invalid
  /\ _provider (self Example.settled_invalid) = INVALID
  /\ _provider_ready (self Example.settled_invalid) = true
  /\ ~ invalid_not_ready Example.asked_invalid
  /\ ~ invalid_not_ready Example.settled_invalid.
Proof.
  assert (reachable Example.asked_invalid) as R1.
  { apply (reachable_steps [Host_update Example.fine (Example.use INVALID 1)]
             Example.loaded); [exact loaded_reachable|reflexivity]. }
  assert (reachable Example.settled_invalid) as R2.
  { apply (reachable_steps [Worker_begin 1; Worker_finish Example.fine 1]
             Example.asked_invalid); [exact R1|reflexivity]. }
  repeat split; try assumption; try reflexivity.
  - intros H. by specialize (H eq_refl).
  - intros H. by specialize (H eq_refl).
Qed.


(** * Further properties of the instance *)

(** ** Settings *)

(** The cast of line 513 keeps the stored mode when it fits in 32 bits,
    and otherwise wraps it. *)
Lemma greenscreen_mode_cast_spec (v : Z) :
  (- 2 ^ 31 <= greenscreen_mode_cast v < 2 ^ 31)%Z
  /\ ((greenscreen_mode_cast v - v) mod 2 ^ 32 = 0)%Z
  /\ ((- 2 ^ 31 <= v < 2 ^ 31)%Z -> greenscreen_mode_cast v = v).
Proof.
  unfold greenscreen_mode_cast.
  change (2 ^ 31)%Z with 2147483648%Z. change (2 ^ 32)%Z with 4294967296%Z.
  pose proof (Z.mod_pos_bound (v + 2147483648) 4294967296 eq_refl) as Hb.
  split; [lia|]. split.
  - rewrite (Z.mod_eq (v + 2147483648) 4294967296) by lia.
    replace (v + 2147483648 - 4294967296 * ((v + 2147483648) / 4294967296)
             - 2147483648 - v)%Z
      with (- ((v + 2147483648) / 4294967296) * 4294967296)%Z by lia.
    apply Z.mod_mul. lia.
  - intros Hv. rewrite Z.mod_small by lia. lia.
Qed.

(** [update] as its two halves: lines 174-184, then lines 186-198. *)
Lemma update_spec e data w :
  update e data w =
    match
      (if decide (requested e data = _provider (self w)) then Ok tt w
       else switch_provider (requested e data)
              {| self := with_provider_ui (requested e data) (self w);
                 threadpool := threadpool w; settings := settings w;
                 trace := trace w |})
    with
    | Ok _ w1 =>
        if _provider_ready (self w1) then
          match _provider (self w1) with
          | NVIDIA_GREENSCREEN => nvvfxgs_update e data w1
          | _ => Ok tt w1
          end
        else Ok tt w1
    | Throw x w1 => Throw x w1
    | Hang => Hang
    | Fault => Fault
    | Terminate => Terminate
    end.
Proof.
  unfold update. fold (requested e data).
  unfold mbind at 1. unfold M_bind, bind at 1, get at 1.
  unfold mbind at 1. unfold M_bind, bind at 1.
  destruct (decide (requested e data = _provider (self w))) as [Heq|Hne].
  - rewrite bool_decide_false by (intros H; by apply H).
    cbn [when]. unfold ret at 1. unfold mbind, M_bind, bind, get, when.
    destruct (_provider_ready (self w)); [|done].
    by destruct (_provider (self w)).
  - rewrite bool_decide_true by done. cbn [when].
    unfold mbind at 1. unfold M_bind, bind at 1.
    unfold set_provider_ui at 1. unfold modify_self, modify.
    cbn [self threadpool settings trace].
    destruct (switch_provider _ _) as [[] w1|ex w1| | |]; try done.
    unfold mbind, M_bind, bind, get, when.
    destruct (_provider_ready (self w1)); [|done].
    by destruct (_provider (self w1)).
Qed.

(** What a switch request that returns adds to the trace and to the pool. *)
Lemma switch_provider_trace provider w w' :
  provider <> _provider (self w) ->
  switch_provider provider w = Ok tt w' ->
  _provider (self w') = provider
  /\ _provider_ready (self w') = _provider_ready (self w)
  /\ _provider_ui (self w') = _provider_ui (self w)
  /\ _nvidia_fx (self w') = _nvidia_fx (self w)
  /\ _size (self w') = _size (self w)
  /\ _dirty (self w') = _dirty (self w)
  /\ _effect (self w') = _effect (self w)
  /\ _output_color (self w') = _output_color (self w)
  /\ _output_alpha (self w') = _output_alpha (self w)
  /\ settings w' = settings w
  /\ exists evs,
       trace w' = trace w ++ evs
       /\ occurrences is_adapter_call evs = 0
       /\ occurrences is_push evs = 1
       /\ occurrences is_draw evs = 0.
Proof.
  intros Hne. switch_named Hne.
  rewrite dequeue_provider_task_spec. cbn.
  destruct (_provider_task (self w)) as [id|].
  - destruct (threadpool w !! id) as [t|]; [|done].
    destruct (status t); try done; intros [= <-]; cbn;
      repeat split; eexists;
      (split; [rewrite <- !app_assoc; reflexivity|done]).
  - intros [= <-]. cbn. repeat split; eexists;
      (split; [rewrite <- !app_assoc; reflexivity|done]).
Qed.

(** X1. An [update] makes [_provider] the kind the settings ask for, whether
    it returns or throws later on, provided the kind asked for and the
    current kind are enumerators. If one of them is not, and they differ,
    [update] throws at the log line of [switch_provider] (line 383), where
    [cstring] has no name for it: [_provider_ui] is the kind asked for
    already, [_provider] is still the old kind, and nothing else has
    changed. An [update] that asks for the current kind pushes no task and
    leaves the pool and the task held as they are. *)
Theorem update_reaches_requested e data w :
  (is_enumerator (_provider (self w)) && is_enumerator (requested e data) = true ->
   forall w',
     outcome (update e data w) = Some w' ->
     _provider (self w') = requested e data)
  /\ (requested e data <> _provider (self w) ->
      is_enumerator (_provider (self w)) && is_enumerator (requested e data)
      = false ->
      update e data w =
        Throw (Std Missing_Conversion_Entry)
          {| self := with_provider_ui (requested e data) (self w);
             threadpool := threadpool w; settings := settings w;
             trace := trace w |})
  /\ (requested e data = _provider (self w) ->
      forall w',
        outcome (update e data w) = Some w' ->
        threadpool w' = threadpool w
        /\ _provider_task (self w') = _provider_task (self w)
        /\ _provider (self w') = _provider (self w)
        /\ _provider_ui (self w') = _provider_ui (self w)
        /\ occurrences is_push (new_events w w') = 0).
Proof.
  split; [|split].
  - intros Hen w' H.
    apply update_frame in H as [[[Heq|Hun] Hs]|(Hne & w1 & Hsw & Hs)].
    + destruct Hs as (_ & _ & _ & _ & ->). done.
    + congruence.
    + destruct Hs as (_ & _ & _ & _ & ->).
      by apply switch_provider_trace in Hsw as (-> & _).
  - intros Hne Hun. rewrite update_spec, decide_False by done.
    by rewrite switch_provider_unlisted.
  - intros Heq w'. rewrite update_spec, decide_True by done.
    destruct (_provider_ready (self w)); [|intros [= <-]; repeat split;
      unfold new_events; by rewrite drop_all].
    destruct (_provider (self w)) eqn:E;
      try (intros [= <-]; repeat split; try done;
           unfold new_events; by rewrite drop_all).
    rewrite nvvfxgs_update_spec.
    destruct (_nvidia_fx (self w));
      [|intros [= <-]; repeat split; try done;
        unfold new_events; by rewrite drop_all].
    cbv zeta. destruct (fx_set_mode e); intros [= <-]; repeat split; try done;
      unfold new_events; cbn; by rewrite drop_app_length.
Qed.

Lemma update_reaches_requested_witness :
  _provider (self (default Example.loaded
                     (outcome (update Example.fine (Example.use INVALID 1)
                                 Example.loaded)))) = INVALID
  /\ update Example.fine (Example.use (Unlisted 2) 1) Example.loaded
     = Throw (Std Missing_Conversion_Entry)
         {| self := with_provider_ui (Unlisted 2) (self Example.loaded);
            threadpool := threadpool Example.loaded;
            settings := settings Example.loaded;
            trace := trace Example.loaded |}.
Proof.
  destruct (update_reaches_requested Example.fine (Example.use INVALID 1)
              Example.loaded) as (H1 & _).
  destruct (update_reaches_requested Example.fine (Example.use (Unlisted 2) 1)
              Example.loaded) as (_ & H2 & _).
  split.
  - apply H1; reflexivity.
  - apply H2; [discriminate|reflexivity].
Defined.

(** X2. While the provider is not ready an [update] makes no call to the
    adapter and leaves it as it is, whether it switches or not: the mode is
    applied later, by the task. *)
Theorem update_defers_configuration e data w w' :
  _provider_ready (self w) = false ->
  outcome (update e data w) = Some w' ->
  occurrences is_adapter_call (new_events w w') = 0
  /\ _nvidia_fx (self w') = _nvidia_fx (self w)
  /\ _provider_ready (self w') = false.
Proof.
  intros Hr. rewrite update_spec.
  destruct (decide (requested e data = _provider (self w))) as [Heq|Hne].
  - rewrite Hr. intros [= <-]. repeat split; [|done].
    unfold new_events. by rewrite drop_all.
  - destruct (switch_provider _ _) as [[] w1|ex w1| | |] eqn:Hsw; try done.
    + apply switch_provider_trace in Hsw
        as (_ & Hr1 & _ & Hfx & _ & _ & _ & _ & _ & _ & evs & Htr & Ha & _);
        [|done].
      cbn in Hr1, Hfx, Htr. rewrite Hr1, Hr. intros [= <-].
      repeat split; [|done|congruence].
      unfold new_events. by rewrite Htr, drop_app_length.
    + apply switch_provider_throws in Hsw as (_ & _ & _ & ->).
      intros [= <-]. cbn. repeat split; [|done].
      unfold new_events. cbn. by rewrite drop_all.
Qed.

Lemma update_defers_configuration_witness :
  occurrences is_adapter_call
    (new_events Example.begun
       (default Example.begun
          (outcome (update Example.fine (Example.use NVIDIA_GREENSCREEN 0)
                      Example.begun)))) = 0.
Proof.
  apply (update_defers_configuration Example.fine
           (Example.use NVIDIA_GREENSCREEN 0) Example.begun); reflexivity.
Defined.

(** X3. With the provider ready, the NVIDIA adapter loaded and no change of
    kind, [update] calls [set_mode] once. Its argument is the stored 64-bit
    integer after the cast of line 513 to the 32-bit enumeration: the
    stored value itself when it fits, and otherwise what is left of it
    modulo 2^32. When [set_mode] throws, the exception leaves [update]:
    nothing catches it there, and the adapter keeps the mode it had. *)
Theorem update_applies_mode e data w g :
  _provider_ready (self w) = true ->
  _provider (self w) = NVIDIA_GREENSCREEN ->
  requested e data = NVIDIA_GREENSCREEN ->
  _nvidia_fx (self w) = Some g ->
  exists mode : Z,
    mode = greenscreen_mode_cast (data_NVIDIA_Greenscreen_Mode data)
    /\ (- 2 ^ 31 <= mode < 2 ^ 31)%Z
    /\ ((mode - data_NVIDIA_Greenscreen_Mode data) mod 2 ^ 32 = 0)%Z
    /\ ((- 2 ^ 31 <= data_NVIDIA_Greenscreen_Mode data < 2 ^ 31)%Z ->
        mode = data_NVIDIA_Greenscreen_Mode data)
    /\ match fx_set_mode e with
       | None =>
           exists w',
             update e data w = Ok tt w'
             /\ _nvidia_fx (self w') = Some {| fx_mode := Some mode |}
             /\ new_events w w' = [Nv_set_mode mode]
       | Some x => update e data w = Throw x (observed w [Nv_set_mode mode])
       end.
Proof.
  intros Hr Hp Hreq Hfx. eexists. split; [reflexivity|].
  destruct (greenscreen_mode_cast_spec (data_NVIDIA_Greenscreen_Mode data))
    as (H1 & H2 & H3).
  split; [exact H1|]. split; [exact H2|]. split; [exact H3|].
  rewrite update_spec.
  rewrite decide_True by congruence. rewrite Hr, Hp. cbv iota.
  rewrite nvvfxgs_update_spec, Hfx. cbv zeta.
  destruct (fx_set_mode e); [done|].
  eexists. split; [reflexivity|]. split; [done|].
  unfold new_events. cbn. by rewrite drop_app_length.
Qed.

Lemma update_applies_mode_witness :
  exists w',
    update Example.fine (Example.use AUTOMATIC 4294967296) Example.loaded
    = Ok tt w'
    /\ _nvidia_fx (self w') = Some {| fx_mode := Some 0%Z |}
    /\ new_events Example.loaded w' = [Nv_set_mode 0].
Proof.
  destruct (update_applies_mode Example.fine (Example.use AUTOMATIC 4294967296)
              Example.loaded {| fx_mode := Some 1%Z |}
              eq_refl eq_refl eq_refl eq_refl)
    as (mode & -> & _ & _ & _ & H).
  exact H.
Defined.

(** ** Tick and render *)

(** All that a tick does. *)
Lemma video_tick_full e w :
  exists w',
    video_tick e w = Ok tt w'
    /\ threadpool w' = threadpool w
    /\ settings w' = settings w
    /\ self w' = with_dirty true (with_size (_size (self w')) (self w))
    /\ (filter_target e = true -> _provider_ready (self w) = true ->
        _provider (self w) = NVIDIA_GREENSCREEN ->
        is_Some (_nvidia_fx (self w)) ->
        new_events w w' = [Nv_size (base_width e, base_height e)]
        /\ _size (self w') = fx_size e (base_width e, base_height e))
    /\ (filter_target e = false \/ _provider_ready (self w) = false
        \/ _provider (self w) <> NVIDIA_GREENSCREEN
        \/ _nvidia_fx (self w) = None ->
        new_events w w' = []
        /\ _size (self w') = (base_width e, base_height e)
        /\ get_width w' = N.max (base_width e) 1
        /\ get_height w' = N.max (base_height e) 1
        /\ (1 <= get_width w')%N /\ (1 <= get_height w')%N).
Proof.
  unfold video_tick, nvvfxgs_size, get_width, get_height. unfold_M. cbn.
  destruct (filter_target e), (_provider_ready (self w)) eqn:Hr,
    (_provider (self w)) eqn:Hp, (_nvidia_fx (self w)) eqn:Hfx;
    cbn; rewrite ?Hfx; cbn;
    eexists; (split; [reflexivity|]); cbn; rewrite ?Hr, ?Hp, ?Hfx;
    (split; [done|]); (split; [done|]); (split; [done|]);
    (split;
     [intros;
      first [ done
            | by match goal with H : is_Some None |- _ => destruct H end
            | split; [unfold new_events; cbn; by rewrite drop_app_length|done] ]
     |intros [?|[?|[?|?]]];
      first [ done
            | split; [unfold new_events; cbn; by rewrite drop_all|];
              repeat split; try done; lia ]]).
Qed.

(** X4. A tick always returns. It writes [_size] and [_dirty] and nothing else.
    It calls the adapter, once, only when there is a filter target, the
    provider is ready, its kind is NVIDIA and the adapter is loaded; then
    [_size] is what the adapter made of the host's size. Otherwise no call
    is made, [_size] is the host's size, and [get_width] and [get_height]
    report it with a zero replaced by 1. *)
Theorem video_tick_effect e w :
  exists w',
    video_tick e w = Ok tt w'
    /\ threadpool w' = threadpool w
    /\ settings w' = settings w
    /\ self w' = with_dirty true (with_size (_size (self w')) (self w))
    /\ (filter_target e = true -> _provider_ready (self w) = true ->
        _provider (self w) = NVIDIA_GREENSCREEN ->
        is_Some (_nvidia_fx (self w)) ->
        new_events w w' = [Nv_size (base_width e, base_height e)]
        /\ _size (self w') = fx_size e (base_width e, base_height e))
    /\ (filter_target e = false \/ _provider_ready (self w) = false
        \/ _provider (self w) <> NVIDIA_GREENSCREEN
        \/ _nvidia_fx (self w) = None ->
        new_events w w' = []
        /\ _size (self w') = (base_width e, base_height e)
        /\ get_width w' = N.max (base_width e) 1
        /\ get_height w' = N.max (base_height e) 1
        /\ (1 <= get_width w')%N /\ (1 <= get_height w')%N).
Proof. exact (video_tick_full e w). Qed.

Lemma video_tick_effect_witness :
  exists w',
    video_tick (Example.with_size 0 0 Example.fine) Example.created = Ok tt w'
    /\ new_events Example.created w' = []
    /\ get_width w' = 1%N /\ get_height w' = 1%N.
Proof.
  destruct (video_tick_effect (Example.with_size 0 0 Example.fine) Example.created)
    as (w' & H & _ & _ & _ & _ & H2).
  destruct H2 as (E & _ & Hw & Hh & _); [right; left; reflexivity|].
  exists w'. split; [exact H|]. split; [exact E|]. split; [exact Hw|exact Hh].
Defined.

(** The members a render leaves alone. *)
Lemma video_render_fields e w w' :
  outcome (video_render e w) = Some w' ->
  threadpool w' = threadpool w
  /\ settings w' = settings w
  /\ _size (self w') = _size (self w)
  /\ _provider (self w') = _provider (self w)
  /\ _provider_ui (self w') = _provider_ui (self w)
  /\ _provider_ready (self w') = _provider_ready (self w)
  /\ _provider_task (self w') = _provider_task (self w)
  /\ _effect (self w') = _effect (self w)
  /\ _nvidia_fx (self w') = _nvidia_fx (self w).
Proof.
  unfold video_render, refresh, capture, process, nvvfxgs_process.
  unfold_M. cbn.
  destruct (skip_filter e w); [intros [= <-]; by repeat split|].
  destruct (_dirty (self w)) eqn:Hd; cbn.
  2:{ rewrite composite_spec. destruct (_effect (self w)) eqn:He; [|done].
      intros [= <-]. cbn. rewrite ?He. by repeat split. }
  destruct (process_filter_begin e); cbn;
    [|intros [= <-]; by repeat split].
  destruct (_provider (self w)) eqn:Hp; cbn;
    try (rewrite composite_spec; cbn;
         destruct (_effect (self w)) eqn:He; [|done];
         intros [= <-]; cbn; rewrite ?He, ?Hp; by repeat split).
  destruct (_nvidia_fx (self w)) eqn:Hfx; cbn;
    try (rewrite composite_spec; cbn;
         destruct (_effect (self w)) eqn:He; [|done];
         intros [= <-]; cbn; rewrite ?He, ?Hp, ?Hfx; by repeat split).
  destruct (fx_process e); cbn;
    try (rewrite composite_spec; cbn;
         destruct (_effect (self w)) eqn:He; [|done]);
    intros [= <-]; cbn; rewrite ?He, ?Hp, ?Hfx; by repeat split.
Qed.

(** X5. A render, however it ends, writes only the two cached buffers and
    [_dirty]: the size, the provider, its readiness, the task held, the
    adapter pointer, the effect, the pool and the settings are as before. *)
Theorem video_render_writes e w w' :
  outcome (video_render e w) = Some w' ->
  threadpool w' = threadpool w
  /\ settings w' = settings w
  /\ _size (self w') = _size (self w)
  /\ _provider (self w') = _provider (self w)
  /\ _provider_ui (self w') = _provider_ui (self w)
  /\ _provider_ready (self w') = _provider_ready (self w)
  /\ _provider_task (self w') = _provider_task (self w)
  /\ _effect (self w') = _effect (self w)
  /\ _nvidia_fx (self w') = _nvidia_fx (self w).
Proof. exact (video_render_fields e w w'). Qed.

Lemma video_render_writes_witness :
  _nvidia_fx (self Example.drawn) = _nvidia_fx (self Example.loaded)
  /\ _size (self Example.drawn) = _size (self Example.loaded).
Proof.
  destruct (video_render_writes Example.fine Example.loaded Example.drawn eq_refl)
    as (_ & _ & Hs & _ & _ & _ & _ & _ & Hfx).
  split; [exact Hfx|exact Hs].
Defined.

(** X6. What a render of a stale cache binds and draws when capture and
    process succeed. With the NVIDIA adapter loaded the color buffer of the
    adapter goes to InputA and the mask [process] returned to InputB. With a
    ready provider of another kind, or no adapter loaded, the captured frame
    goes to both. *)
Theorem video_render_binds e w fx :
  skip_filter e w = false ->
  _dirty (self w) = true ->
  process_filter_begin e = true ->
  _effect (self w) = Some fx ->
  (forall g alpha,
      _provider (self w) = NVIDIA_GREENSCREEN -> _nvidia_fx (self w) = Some g ->
      fx_process e = inr alpha ->
      exists w',
        video_render e w = Ok tt w'
        /\ new_events w w' =
             capture_events (_size (self w)) ++ [Nv_process (input_texture e)]
             ++ composite_events fx (fx_get_color e) alpha (_size (self w))
        /\ _output_color (self w') = fx_get_color e
        /\ _output_alpha (self w') = alpha
        /\ _dirty (self w') = false)
  /\ (_provider (self w) <> NVIDIA_GREENSCREEN \/ _nvidia_fx (self w) = None ->
      exists w',
        video_render e w = Ok tt w'
        /\ new_events w w' =
             capture_events (_size (self w))
             ++ composite_events fx (input_texture e) (input_texture e)
                  (_size (self w))
        /\ _output_color (self w') = input_texture e
        /\ _output_alpha (self w') = input_texture e
        /\ _dirty (self w') = false).
Proof.
  intros Hs Hd Hb He. split.
  - intros g alpha Hp Hfx Hpr.
    unfold video_render, refresh, capture, process, nvvfxgs_process.
    unfold_M. cbn. rewrite Hs, Hd, Hb. cbn. rewrite Hp, Hfx. cbn.
    rewrite Hpr. cbn. rewrite composite_spec. cbn. rewrite He.
    eexists. split; [reflexivity|]. split; [trace_eq|done].
  - intros Hno.
    unfold video_render, refresh, capture, process, nvvfxgs_process.
    unfold_M. cbn. rewrite Hs, Hd, Hb. cbn.
    destruct (_provider (self w)) eqn:Hp; cbn;
      try (rewrite composite_spec; cbn; rewrite He;
           eexists; split; [reflexivity|]; split; [trace_eq|done]).
    destruct Hno as [Hno|Hno]; [done|]. rewrite Hno. cbn.
    rewrite composite_spec; cbn; rewrite He.
    eexists; split; [reflexivity|]; split; [trace_eq|done].
Qed.

Lemma video_render_binds_witness :
  exists w',
    video_render Example.fine Example.loaded = Ok tt w'
    /\ new_events Example.loaded w' =
         capture_events (1280, 720)%N ++ [Nv_process 7]
         ++ composite_events Example.fx 9 8 (1280, 720)%N
    /\ _output_color (self w') = 9
    /\ _output_alpha (self w') = 8
    /\ _dirty (self w') = false.
Proof.
  destruct (video_render_binds Example.fine Example.loaded Example.fx
              eq_refl eq_refl eq_refl eq_refl) as [H _].
  exact (H {| fx_mode := Some 1%Z |} 8 eq_refl eq_refl eq_refl).
Defined.

(** ** Construction *)

(** The world the constructor leaves, when it returns and when it throws. *)
Lemma constructor_spec e data stored :
  exists w,
    outcome (constructor e data (blank stored)) = Some w
    /\ _provider_ready (self w) = false
    /\ _dirty (self w) = true
    /\ _size (self w) = (1, 1)%N
    /\ _output_color (self w) = input_texture e
    /\ _output_alpha (self w) = input_texture e
    /\ _effect (self w) = effect_file e
    /\ (effect_file e = None -> trace w !! 1 = Some LogError_effect)
    /\ _nvidia_fx (self w) = None
    /\ occurrences is_adapter_call (trace w) = 0
    /\ _provider_ui (self w)
       = match data with Some d => requested e d | None => INVALID end
    /\ (is_enumerator (_provider_ui (self w)) = true ->
        constructor e data (blank stored) = Ok tt w
        /\ _provider (self w) = _provider_ui (self w)
        /\ (_provider (self w) = INVALID ->
            threadpool w = [] /\ _provider_task (self w) = None)
        /\ (_provider (self w) <> INVALID ->
            threadpool w = [{| spd_provider := INVALID; status := Queued |}]
            /\ _provider_task (self w) = Some 0))
    /\ (is_enumerator (_provider_ui (self w)) = false ->
        constructor e data (blank stored) = Throw (Std Missing_Conversion_Entry) w
        /\ _provider (self w) = INVALID
        /\ threadpool w = []
        /\ _provider_task (self w) = None).
Proof.
  unfold constructor, load, update.
  destruct data as [d|]; [fold (requested e d)|].
  - unfold switch_provider, dequeue_provider_task, threadpool_push.
    unfold_M. cbn.
    destruct (effect_file e) as [fx|]; cbn;
      destruct (requested e d) eqn:Hreq; cbn;
      eexists; (split; [reflexivity|]); cbn; repeat split; try done.
  - unfold_M. cbn.
    destruct (effect_file e) as [fx|]; cbn;
      eexists; (split; [reflexivity|]); cbn; repeat split; try done.
Qed.

(** X7. The constructor returns unless the settings name a provider that is
    no enumerator; then the log line of the first switch request throws
    (line 383) and the exception leaves the constructor, with no task
    pushed. Either way the object is not ready, its cache stale, both
    cached buffers the texture of the input target, no adapter loaded and
    none called; a failure to load the effect file is logged and leaves
    [_effect] empty. When the constructor returns, [_provider] is the kind
    the settings ask for, and unless that is [INVALID] (or there are no
    settings) exactly one task is queued, spawned with the previous kind
    [INVALID]. *)
Theorem constructor_result e data stored :
  exists w,
    outcome (constructor e data (blank stored)) = Some w
    /\ _provider_ready (self w) = false
    /\ _dirty (self w) = true
    /\ _size (self w) = (1, 1)%N
    /\ _output_color (self w) = input_texture e
    /\ _output_alpha (self w) = input_texture e
    /\ _effect (self w) = effect_file e
    /\ (effect_file e = None -> trace w !! 1 = Some LogError_effect)
    /\ _nvidia_fx (self w) = None
    /\ occurrences is_adapter_call (trace w) = 0
    /\ _provider_ui (self w)
       = match data with Some d => requested e d | None => INVALID end
    /\ (is_enumerator (_provider_ui (self w)) = true ->
        constructor e data (blank stored) = Ok tt w
        /\ _provider (self w) = _provider_ui (self w)
        /\ (_provider (self w) = INVALID ->
            threadpool w = [] /\ _provider_task (self w) = None)
        /\ (_provider (self w) <> INVALID ->
            threadpool w = [{| spd_provider := INVALID; status := Queued |}]
            /\ _provider_task (self w) = Some 0))
    /\ (is_enumerator (_provider_ui (self w)) = false ->
        constructor e data (blank stored) = Throw (Std Missing_Conversion_Entry) w
        /\ _provider (self w) = INVALID
        /\ threadpool w = []
        /\ _provider_task (self w) = None).
Proof. exact (constructor_spec e data stored). Qed.

Lemma constructor_result_witness :
  (threadpool Example.created
   = [{| spd_provider := INVALID; status := Queued |}]
   /\ _provider_task (self Example.created) = Some 0)
  /\ exists w,
       constructor Example.fine (Some (Example.use (Unlisted 2) 1))
         (blank (Example.use (Unlisted 2) 1))
       = Throw (Std Missing_Conversion_Entry) w
       /\ threadpool w = [].
Proof.
  split.
  - destruct (constructor_result Example.fine (Some (Example.use AUTOMATIC 1))
                (Example.use AUTOMATIC 1))
      as (w & Hrun & _ & _ & _ & _ & _ & _ & _ & _ & _ & Hui & H & _).
    assert (w = Example.created) as -> by (revert Hrun; vm_compute; congruence).
    destruct (H eq_refl) as (_ & _ & _ & H3). apply H3. discriminate.
  - destruct (constructor_result Example.fine
                (Some (Example.use (Unlisted 2) 1)) (Example.use (Unlisted 2) 1))
      as (w & _ & _ & _ & _ & _ & _ & _ & _ & _ & _ & Hui & _ & H).
    rewrite Hui in H. destruct (H eq_refl) as (Hthrow & _ & Hq & _).
    exists w. split; [exact Hthrow|exact Hq].
Defined.

(** ** A missing effect *)

(** X8. When the effect file fails to load the constructor logs the error and
    goes on with [_effect] empty. A render of such an instance draws
    nothing: it is skipped, or it reaches line 346 and dereferences the
    empty pointer, which it does whenever it is not skipped and capture and
    process do not fail. *)
Theorem video_render_without_effect :
  (forall e data stored w,
      effect_file e = None ->
      outcome (constructor e data (blank stored)) = Some w ->
      _effect (self w) = None /\ trace w !! 1 = Some LogError_effect)
  /\ (forall e w,
        _effect (self w) = None ->
        video_render e w = Fault
        \/ exists w',
             video_render e w = Ok tt w'
             /\ last (new_events w w') = Some Skip_video_filter
             /\ occurrences is_draw (new_events w w') = 0)
  /\ (forall e w,
        _effect (self w) = None ->
        skip_filter e w = false ->
        _dirty (self w) = false
        \/ (process_filter_begin e = true /\ forall ex, fx_process e <> inl ex) ->
        video_render e w = Fault).
Proof.
  split; [|split].
  - intros e data stored w He H.
    destruct (constructor_spec e data stored)
      as (w0 & Hrun & _ & _ & _ & _ & _ & Hef & Hlog & _).
    rewrite Hrun in H. injection H as <-. rewrite Hef, He. split; [done|].
    by apply Hlog.
  - intros e w He.
    unfold video_render, refresh, capture, process, nvvfxgs_process.
    unfold_M. cbn.
    destruct (skip_filter e w).
    { right. eexists. split; [reflexivity|].
      unfold new_events. cbn. by rewrite drop_app_length. }
    destruct (_dirty (self w)); cbn.
    2:{ rewrite composite_spec, He. by left. }
    destruct (process_filter_begin e); cbn.
    2:{ right. eexists. split; [reflexivity|].
        unfold new_events. cbn. by rewrite <- app_assoc, drop_app_length. }
    destruct (_provider (self w)); cbn;
      try (rewrite composite_spec; cbn; rewrite He; by left).
    destruct (_nvidia_fx (self w)); cbn;
      try (rewrite composite_spec; cbn; rewrite He; by left).
    destruct (fx_process e); cbn.
    + right. eexists. split; [reflexivity|].
      unfold new_events. cbn. by rewrite <- !app_assoc, drop_app_length.
    + rewrite composite_spec; cbn; rewrite He; by left.
  - intros e w He Hs Hok.
    unfold video_render, refresh, capture, process, nvvfxgs_process.
    unfold_M. cbn. rewrite Hs.
    destruct (_dirty (self w)); cbn.
    2:{ by rewrite composite_spec, He. }
    destruct Hok as [?|[Hb Hno]]; [done|]. rewrite Hb. cbn.
    destruct (_provider (self w)); cbn;
      try (rewrite composite_spec; cbn; by rewrite He).
    destruct (_nvidia_fx (self w)); cbn;
      try (rewrite composite_spec; cbn; by rewrite He).
    destruct (fx_process e) as [ex|] eqn:Hpr; [by destruct (Hno ex)|]. cbn.
    rewrite composite_spec; cbn; by rewrite He.
Qed.

Lemma video_render_without_effect_witness :
  _effect (self Example.bare) = None
  /\ video_render Example.fine Example.bare_loaded = Fault.
Proof.
  destruct video_render_without_effect as (H1 & _ & H3).
  split.
  - apply (H1 Example.no_effect (Some (Example.use AUTOMATIC 1))
             (Example.use AUTOMATIC 1) Example.bare); reflexivity.
  - apply (H3 Example.fine Example.bare_loaded);
      [reflexivity|reflexivity|].
    right. split; [reflexivity|discriminate].
Defined.

(** ** The adapter across a switch *)



(** ** More invariants of the reachable worlds *)

Lemma update_named e data w w' :
  provider_named w ->
  outcome (update e data w) = Some w' ->
  provider_named w'.
Proof.
  intros [Hen Hui]. rewrite update_spec.
  assert (Htail : forall w1,
    provider_named w1 ->
    outcome (if _provider_ready (self w1) then
               match _provider (self w1) with
               | NVIDIA_GREENSCREEN => nvvfxgs_update e data w1
               | _ => Ok tt w1
               end
             else Ok tt w1) = Some w' ->
    provider_named w').
  { intros w1 H1. destruct (_provider_ready (self w1)); [|by intros [= <-]].
    destruct (_provider (self w1)) eqn:Hp; try (by intros [= <-]).
    rewrite nvvfxgs_update_spec.
    destruct (_nvidia_fx (self w1)); [|by intros [= <-]].
    cbv zeta. destruct H1 as [H1 H2]. rewrite Hp in H1, H2.
    destruct (fx_set_mode e); intros [= <-]; split; cbn; by rewrite ?Hp. }
  destruct (decide (requested e data = _provider (self w))) as [Heq|Hne].
  - by apply Htail.
  - destruct (switch_provider _ _) as [[] w1|x w1| | |] eqn:Hsw; try done.
    + match type of Hsw with switch_provider ?p ?w0 = _ =>
        destruct (switch_provider_named w0 p w1 Hne Hsw) as [_ E2] end.
      apply switch_provider_trace in Hsw as (Hp1 & _ & Hu1 & _); [|done].
      apply Htail. cbn in Hu1. split; [by rewrite Hp1|left; congruence].
    + apply switch_provider_throws in Hsw as (_ & Hun & _ & ->).
      intros [= <-]. cbn in *. split; [done|]. right.
      rewrite Hen in Hun. exact Hun.
Qed.

Lemma step_named a w w' :
  provider_named w -> step a w = Some w' -> provider_named w'.
Proof.
  intros Hn. destruct a as [e data|e|e|id|e id]; cbn.
  - unfold mbind, M_bind, bind, store_settings, modify. by apply update_named.
  - destruct (video_tick_full e w) as (w1 & -> & _ & _ & Hs & _).
    intros [= <-]. unfold provider_named. rewrite Hs. exact Hn.
  - intros H. apply video_render_fields in H
      as (_ & _ & _ & Hp & Hu & _).
    unfold provider_named. rewrite Hp, Hu. exact Hn.
  - destruct (threadpool w !! id) as [t|]; [|done].
    destruct (decide (status t = Queued)); [|done].
    unfold task_switch_provider_begin. unfold_M. cbn. by intros [= <-].
  - destruct (threadpool w !! id) as [t|]; [|done].
    destruct (decide (status t = Running)); [|done].
    destruct (outcome (task_switch_provider_locked e (spd_provider t) w))
      as [w1|] eqn:Hrun; [|done].
    apply task_switch_provider_locked_frame in Hrun
      as (evs & _ & _ & _ & _ & Hp & Hu & _).
    cbn. intros [= <-]. unfold provider_named. cbn. rewrite Hp, Hu. exact Hn.
Qed.

Lemma reachable_named w : reachable w -> provider_named w.
Proof.
  induction 1 as [e data stored w H|a w w' _ IH H].
  - destruct (constructor_spec e data stored)
      as (w0 & Hrun & _ & _ & _ & _ & _ & _ & _ & _ & _ & _ & Hok & Hko).
    rewrite H in Hrun. injection Hrun as <-.
    destruct (is_enumerator (_provider_ui (self w))) eqn:E.
    + destruct (Hok eq_refl) as (_ & Hp & _). split; [by rewrite Hp|by left].
    + destruct (Hko eq_refl) as (Hthrow & _). congruence.
  - by eapply step_named.
Qed.

Lemma switch_provider_handle_valid provider w w' :
  handle_valid w -> switch_provider provider w = Ok tt w' -> handle_valid w'.
Proof.
  intros Hv. destruct (decide (provider = _provider (self w))) as [->|Hne].
  - rewrite switch_provider_same. by intros [= <-].
  - switch_named Hne.
    destruct (dequeue_provider_task _) as [[] w1| | | |]; try done.
    intros [= <-] id. cbn. intros [= <-]. rewrite length_app. cbn. lia.
Qed.

Lemma same_coordination_handle_valid w w' :
  same_coordination w w' -> handle_valid w -> handle_valid w'.
Proof.
  intros (Hq & _ & Ht & _) Hv id. rewrite Hq, Ht. apply Hv.
Qed.

Lemma step_handle_valid a w w' :
  handle_valid w -> step a w = Some w' -> handle_valid w'.
Proof.
  intros Hv. destruct a as [e data|e|e|id|e id]; cbn.
  - unfold mbind, M_bind, bind, store_settings, modify. intros H.
    apply update_frame in H as [[_ Hs]|(_ & w1 & Hsw & Hs)].
    + eapply same_coordination_handle_valid; [exact Hs|]. exact Hv.
    + eapply same_coordination_handle_valid; [exact Hs|].
      eapply switch_provider_handle_valid; [|exact Hsw]. exact Hv.
  - intros H. eapply same_coordination_handle_valid; [|exact Hv].
    by eapply video_tick_frame.
  - intros H. eapply same_coordination_handle_valid; [|exact Hv].
    by eapply video_render_frame.
  - destruct (threadpool w !! id) as [t|]; [|done].
    destruct (decide (status t = Queued)); [|done].
    unfold task_switch_provider_begin. unfold_M. cbn. intros [= <-] i. cbn.
    rewrite length_insert. apply Hv.
  - destruct (threadpool w !! id) as [t|]; [|done].
    destruct (decide (status t = Running)); [|done].
    destruct (outcome (task_switch_provider_locked e (spd_provider t) w))
      as [w1|] eqn:Hrun; [|done].
    apply task_switch_provider_locked_frame in Hrun
      as (evs & _ & Hq & _ & _ & _ & _ & Ht & _).
    cbn. intros [= <-] i. cbn.
    rewrite length_insert, Hq, Ht. apply Hv.
Qed.

Lemma reachable_handle_valid w : reachable w -> handle_valid w.
Proof.
  induction 1 as [e data stored w H|a w w' _ IH H].
  - destruct (constructor_spec e data stored)
      as (w0 & Hrun & _ & _ & _ & _ & _ & _ & _ & _ & _ & _ & Hok & Hko).
    rewrite H in Hrun. injection Hrun as <-.
    destruct (is_enumerator (_provider_ui (self w))) eqn:E.
    + destruct (Hok eq_refl) as (_ & _ & H0 & H1).
      destruct (decide (_provider (self w) = INVALID)) as [Hi|Hi].
      * destruct (H0 Hi) as [_ Ht]. intros id. by rewrite Ht.
      * destruct (H1 Hi) as [Hq Ht]. intros id. rewrite Ht, Hq. intros [= <-].
        cbn. lia.
    + destruct (Hko eq_refl) as (Hthrow & _). congruence.
  - by eapply step_handle_valid.
Qed.

(** X10. In every world the instance can reach, [_provider] is an
    enumerator, and [_provider_ui] is the same kind unless it is no
    enumerator: [update] writes [_provider_ui] before it calls
    [switch_provider] (line 182), and a request that throws at the log
    line leaves the value there. So the panel that [properties] builds has
    the NVIDIA group only when [_provider] is NVIDIA, and has it whenever
    [_provider] is NVIDIA and [_provider_ui] is an enumerator. *)
Theorem provider_ui_lags_only_unnamed w :
  reachable w ->
  is_enumerator (_provider (self w)) = true
  /\ (_provider_ui (self w) = _provider (self w)
      \/ is_enumerator (_provider_ui (self w)) = false)
  /\ (properties w = nvvfxgs_properties ->
      _provider (self w) = NVIDIA_GREENSCREEN)
  /\ (_provider (self w) = NVIDIA_GREENSCREEN ->
      is_enumerator (_provider_ui (self w)) = true ->
      properties w = nvvfxgs_properties)
  /\ (_provider (self w) <> NVIDIA_GREENSCREEN -> properties w = []).
Proof.
  intros Hr. destruct (reachable_named w Hr) as [Hen Hui].
  split; [exact Hen|]. split; [exact Hui|]. unfold properties.
  destruct Hui as [->|Hun].
  - destruct (_provider (self w)); repeat split; done.
  - by destruct (_provider_ui (self w)).
Qed.

Lemma provider_ui_lags_only_unnamed_witness :
  properties Example.loaded = nvvfxgs_properties
  /\ reachable Example.misnamed
  /\ _provider (self Example.misnamed) = NVIDIA_GREENSCREEN
  /\ properties Example.misnamed = [].
Proof.
  assert (reachable Example.misnamed) as R.
  { apply (reachable_steps [Host_update Example.fine (Example.use (Unlisted 2) 1)]
             Example.loaded); [exact loaded_reachable|reflexivity]. }
  split.
  - apply (provider_ui_lags_only_unnamed Example.loaded loaded_reachable);
      reflexivity.
  - split; [exact R|]. split; reflexivity.
Defined.

(** ** Requests made while a task runs; destruction *)

(** X11. An [update] blocks for ever in one case only: it asks for another
    kind, one that is an enumerator, while the task the instance holds has
    run its first statement and not yet ended. The caller then holds
    [_provider_lock] (line 371) and waits for a task that waits for the
    same lock (line 417). In every other reachable world [update] comes
    back, returning or throwing; a request for a kind that is no
    enumerator throws at the log line of line 383, before the task held is
    looked at. *)
Theorem update_blocks_only_on_running_task e data w :
  reachable w ->
  (requested e data <> _provider (self w) ->
   is_enumerator (requested e data) = true ->
   held_task_status w = Some Running ->
   update e data w = Hang)
  /\ (requested e data = _provider (self w)
      \/ is_enumerator (requested e data) = false
      \/ held_task_status w <> Some Running ->
      is_Some (outcome (update e data w)))
  /\ (is_enumerator (requested e data) = false ->
      exists w', update e data w = Throw (Std Missing_Conversion_Entry) w').
Proof.
  intros Hr. pose proof (reachable_handle_valid w Hr) as Hv.
  destruct (reachable_named w Hr) as [Hen _].
  assert (Htail : forall w1,
    is_Some (outcome (if _provider_ready (self w1) then
                        match _provider (self w1) with
                        | NVIDIA_GREENSCREEN => nvvfxgs_update e data w1
                        | _ => Ok tt w1
                        end
                      else Ok tt w1))).
  { intros w1. destruct (_provider_ready (self w1)); [|by eexists].
    destruct (_provider (self w1)); try by eexists.
    rewrite nvvfxgs_update_spec.
    destruct (_nvidia_fx (self w1)); [|by eexists].
    cbv zeta. destruct (fx_set_mode e); by eexists. }
  assert (Hthrow : is_enumerator (requested e data) = false ->
    update e data w
    = Throw (Std Missing_Conversion_Entry)
        {| self := with_provider_ui (requested e data) (self w);
           threadpool := threadpool w; settings := settings w;
           trace := trace w |}).
  { intros Hun. rewrite update_spec, decide_False by congruence.
    rewrite switch_provider_unlisted; [done|cbn; congruence|].
    cbn. by rewrite Hun, andb_false_r. }
  split; [|split].
  - intros Hne Hreq. rewrite update_spec, decide_False by done.
    rewrite switch_provider_spec by done.
    rewrite dequeue_provider_task_spec. cbn. unfold held_task_status.
    destruct (_provider_task (self w)) as [id|]; [|done].
    destruct (threadpool w !! id) as [t|]; [|done].
    by intros [= ->].
  - intros Hor.
    destruct (is_enumerator (requested e data)) eqn:Hreq;
      [|rewrite Hthrow by done; by eexists].
    rewrite update_spec.
    destruct (decide (requested e data = _provider (self w))) as [Heq|Hne];
      [apply Htail|].
    destruct Hor as [?|[?|Hno]]; try done.
    rewrite switch_provider_spec by done.
    rewrite dequeue_provider_task_spec. cbn. revert Hno. unfold held_task_status.
    destruct (_provider_task (self w)) as [id|] eqn:Hh; [|intros _; apply Htail].
    destruct (threadpool w !! id) as [t|] eqn:Hl.
    + destruct (status t); intros ?; try done; apply Htail.
    + apply lookup_ge_None in Hl. pose proof (Hv id Hh). lia.
  - intros Hun. eexists. by apply Hthrow.
Qed.

Lemma update_blocks_only_on_running_task_witness :
  update Example.fine (Example.use INVALID 1) Example.begun = Hang
  /\ is_Some (outcome (update Example.fine (Example.use INVALID 1) Example.loaded))
  /\ is_Some (outcome (update Example.fine (Example.use (Unlisted 2) 1)
                         Example.begun)).
Proof.
  split; [|split].
  - apply (update_blocks_only_on_running_task Example.fine
             (Example.use INVALID 1) Example.begun begun_reachable);
      [discriminate|reflexivity|reflexivity].
  - apply (update_blocks_only_on_running_task Example.fine
             (Example.use INVALID 1) Example.loaded loaded_reachable).
    right. right. discriminate.
  - apply (update_blocks_only_on_running_task Example.fine
             (Example.use (Unlisted 2) 1) Example.begun begun_reachable).
    right. left. reflexivity.
Defined.

(** X12. The destructor, with the destruction of the members that follows
    its body. It blocks for ever when the task held has run its first
    statement and not yet ended. Otherwise, when an adapter is held and its
    destructor throws, the program ends: nothing may leave a destructor. In
    every other case the destructor returns, never throws, with the task
    pointer empty, no task in flight and no adapter held: after the pop and
    the wait for a task held, it calls [nvvfxgs_unload], once, exactly when
    [_provider] is NVIDIA, and the adapter's destructor runs, once, exactly
    when an adapter was held, whatever [_provider] is. *)
Theorem destructor_result e w :
  reachable w ->
  (held_task_status w = Some Running -> destructor e w = Hang)
  /\ (held_task_status w <> Some Running ->
      is_Some (_nvidia_fx (self w)) ->
      fx_destruct e <> None ->
      destructor e w = Terminate)
  /\ (held_task_status w <> Some Running ->
      _nvidia_fx (self w) = None \/ fx_destruct e = None ->
      exists w',
        destructor e w = Ok tt w'
        /\ _provider_task (self w') = None
        /\ idle w'
        /\ _nvidia_fx (self w') = None
        /\ new_events w w'
           = match _provider_task (self w) with
             | Some id => [Threadpool_pop id; Await_completion id]
             | None => []
             end ++ destructor_events w)
  /\ (forall x w', destructor e w <> Throw x w').
Proof.
  intros Hr. pose proof (reachable_handle_valid w Hr) as Hv.
  destruct (reachable_coordinated w Hr) as [Ho _].
  rewrite destructor_spec.
  assert (Hdq : held_task_status w <> Some Running ->
    exists w1, dequeue_provider_task w = Ok tt w1).
  { unfold held_task_status. rewrite dequeue_provider_task_spec.
    destruct (_provider_task (self w)) as [id|] eqn:Hh; [|by eexists].
    destruct (threadpool w !! id) as [t|] eqn:Hl.
    - destruct (status t); intros ?; try done; by eexists.
    - apply lookup_ge_None in Hl. pose proof (Hv id Hh). lia. }
  split; [|split; [|split]].
  - unfold held_task_status. rewrite dequeue_provider_task_spec.
    destruct (_provider_task (self w)) as [id|]; [|done].
    destruct (threadpool w !! id) as [t|]; [|done].
    by intros [= ->].
  - intros Hno [g Hg] Hdx. destruct (Hdq Hno) as [w1 Hd]. rewrite Hd.
    destruct (dequeue_provider_task_idle w w1 Ho Hd) as (_ & Hs & _).
    rewrite Hs. cbn [_nvidia_fx with_provider_task]. rewrite Hg.
    by destruct (fx_destruct e).
  - intros Hno Hor. destruct (Hdq Hno) as [w1 Hd]. rewrite Hd.
    destruct (dequeue_provider_task_idle w w1 Ho Hd) as (Hi & Hs & _ & _ & Htr).
    assert (He : destructor_events w1 = destructor_events w).
    { unfold destructor_events. by rewrite Hs. }
    rewrite He, Hs. cbn [_nvidia_fx with_provider_task].
    destruct (_nvidia_fx (self w)) eqn:Hfx;
      [destruct (fx_destruct e) eqn:Hdx; [by destruct Hor|]|];
      eexists; (split; [reflexivity|]); cbn; rewrite ?Hs; cbn;
      (split; [done|]); (split; [exact Hi|]); (split; [done|]);
      unfold new_events, observed, holding; cbn [trace];
      by rewrite Htr, <- app_assoc, drop_app_length.
  - intros x w'. destruct (dequeue_provider_task w) as [[] w1| | | |]; try done.
    destruct (_nvidia_fx (self w1)); [|done]. by destruct (fx_destruct e).
Qed.

Lemma destructor_result_witness :
  (exists w',
      destructor Example.fine Example.loaded = Ok tt w'
      /\ _nvidia_fx (self w') = None
      /\ new_events Example.loaded w'
         = [Threadpool_pop 0; Await_completion 0; Nv_unload; Fx_destruct])
  /\ destructor Example.fine Example.begun = Hang
  /\ destructor (Example.with_destruct (Some Example.boom) Example.fine)
       Example.loaded = Terminate.
Proof.
  destruct (destructor_result Example.fine Example.loaded loaded_reachable)
    as (_ & _ & H & _).
  destruct (destructor_result Example.fine Example.begun begun_reachable)
    as (Hh & _).
  destruct (destructor_result
              (Example.with_destruct (Some Example.boom) Example.fine)
              Example.loaded loaded_reachable) as (_ & Ht & _).
  split; [|split].
  - destruct H as (w' & Hrun & _ & _ & Hnv & Hev);
      [discriminate|right; reflexivity|].
    exists w'. split; [exact Hrun|]. split; [exact Hnv|exact Hev].
  - apply Hh. reflexivity.
  - apply Ht; [discriminate|by eexists|discriminate].
Defined.

(** ** Which provider is asked for *)

(** X13. [find_ideal_provider] never answers [INVALID]: it answers a kind of the
    priority list that is available, or [AUTOMATIC] when none is. [update]
    resolves the setting [AUTOMATIC] this way and takes any other setting as
    it is, without asking whether that kind is available. *)
Theorem provider_resolution e data :
  find_ideal_provider e <> INVALID
  /\ (find_ideal_provider e = AUTOMATIC <->
      Forall (fun p => is_provider_available e p = false) provider_priority)
  /\ (find_ideal_provider e <> AUTOMATIC ->
      In (find_ideal_provider e) provider_priority
      /\ is_provider_available e (find_ideal_provider e) = true)
  /\ (data_Provider data = AUTOMATIC -> requested e data = find_ideal_provider e)
  /\ (data_Provider data <> AUTOMATIC -> requested e data = data_Provider data).
Proof.
  assert (Hreq : (data_Provider data = AUTOMATIC ->
                  requested e data = find_ideal_provider e)
                 /\ (data_Provider data <> AUTOMATIC ->
                     requested e data = data_Provider data)).
  { unfold requested. split; intros H.
    - by rewrite decide_True.
    - by rewrite decide_False. }
  destruct Hreq as [Hq1 Hq2].
  destruct (List.find (is_provider_available e) provider_priority) as [v|] eqn:Hf.
  - assert (HF : find_ideal_provider e = v)
      by (unfold find_ideal_provider; by rewrite Hf).
    rewrite HF in *. apply List.find_some in Hf as [Hin Hav].
    assert (v <> INVALID /\ v <> AUTOMATIC) as [H1 H2]
      by (split; intros ->; discriminate).
    split; [exact H1|]. split; [|split; [done|split; [exact Hq1|exact Hq2]]].
    split; [done|]. intros Hall. exfalso.
    rewrite Forall_forall in Hall.
    specialize (Hall v (proj2 (list_elem_of_In _ _) Hin)). congruence.
  - assert (HF : find_ideal_provider e = AUTOMATIC)
      by (unfold find_ideal_provider; by rewrite Hf).
    rewrite HF in *.
    split; [done|]. split; [|split; [done|split; [exact Hq1|exact Hq2]]].
    split; [|done]. intros _. rewrite Forall_forall. intros p Hp.
    apply (List.find_none _ _ Hf). by apply list_elem_of_In.
Qed.

Lemma provider_resolution_witness :
  requested Example.fine (Example.use AUTOMATIC 1) = NVIDIA_GREENSCREEN
  /\ In (find_ideal_provider Example.fine) provider_priority.
Proof.
  destruct (provider_resolution Example.fine (Example.use AUTOMATIC 1))
    as (_ & _ & H3 & H4 & _).
  split.
  - rewrite (H4 eq_refl). reflexivity.
  - apply H3. discriminate.
Defined.

(** ** The factory *)

(** X14. The factory constructor keeps the SDK all or nothing: no exception of
    the three loaders leaves it, the three handles are held and the provider is available exactly when
    all three loaders returned; a failure of any of them, of whatever kind,
    empties all three handles, logs a warning and then the error, and the filter is
    not registered. The filter is registered exactly when NVIDIA is
    available, and then [AUTOMATIC] in the settings always resolves to
    NVIDIA. *)
Theorem factory_all_or_nothing p :
  let f := fst (Factory.constructor p) in
  let l := snd (Factory.constructor p) in
  Factory._nvcuda f = Factory._nvidia_available f
  /\ Factory._nvcvi f = Factory._nvidia_available f
  /\ Factory._nvvfx f = Factory._nvidia_available f
  /\ Factory.registered f = Factory._nvidia_available f
  /\ (Factory._nvidia_available f = true <->
      Factory.cuda_get p = None /\ Factory.cv_get p = None
      /\ Factory.vfx_get p = None)
  /\ (Factory._nvidia_available f = true -> l = [Factory.Finish_setup])
  /\ (Factory._nvidia_available f = false ->
      exists msg, l = [Factory.Warning_nvidia msg; Factory.Error_all_failed])
  /\ forall e data,
       (Factory.registered f = true ->
        find_ideal_provider (served_by f e) = NVIDIA_GREENSCREEN
        /\ requested (served_by f e) data <> AUTOMATIC)
       /\ (Factory.registered f = false ->
           find_ideal_provider (served_by f e) = AUTOMATIC).
Proof.
  destruct p as [[[x|]|] [[y|]|] [[z|]|]]; cbn;
    repeat split; try done; try (intros (? & ? & ?); done);
    try (by eexists);
    try (unfold requested, find_ideal_provider; cbn;
         destruct (decide (data_Provider data = AUTOMATIC)); done).
Qed.

Lemma factory_all_or_nothing_witness :
  Factory.registered
    (fst (Factory.constructor
            {| Factory.cuda_get := None; Factory.cv_get := Some Other;
               Factory.vfx_get := None |})) = false
  /\ Factory._nvcuda
       (fst (Factory.constructor
               {| Factory.cuda_get := None; Factory.cv_get := Some Other;
                  Factory.vfx_get := None |})) = false.
Proof.
  destruct (factory_all_or_nothing
              {| Factory.cuda_get := None; Factory.cv_get := Some Other;
                 Factory.vfx_get := None |})
    as (H1 & _ & _ & H4 & _).
  split; [rewrite H4|rewrite H1]; reflexivity.
Defined.

(** ** From creation to the first composite *)

(** X15. An instance whose settings resolve to NVIDIA passes frames through until
    the task spawned by its constructor has run; once the task has loaded
    the adapter and set it to the stored mode, cast to the enumeration, the
    next render, with no tick needed, captures, processes and draws the
    composite with the buffers of the adapter. *)
Theorem first_composite e0 stored e1 e2 fx alpha :
  requested e0 stored = NVIDIA_GREENSCREEN ->
  effect_file e0 = Some fx ->
  fx_construct e1 = None ->
  fx_set_mode e1 = None ->
  filter_target e2 = true \/ filter_parent e2 = true ->
  base_width e2 <> 0%N ->
  base_height e2 <> 0%N ->
  process_filter_begin e2 = true ->
  fx_process e2 = inr alpha ->
  exists w0 w1 w2,
    constructor e0 (Some stored) (blank stored) = Ok tt w0
    /\ video_render e2 w0 = Ok tt (observed w0 [Skip_video_filter])
    /\ steps [Worker_begin 0; Worker_finish e1 0] w0 = Some w1
    /\ _provider_ready (self w1) = true
    /\ _nvidia_fx (self w1)
       = Some {| fx_mode :=
                   Some (greenscreen_mode_cast
                           (data_NVIDIA_Greenscreen_Mode stored)) |}
    /\ video_render e2 w1 = Ok tt w2
    /\ new_events w1 w2 =
         capture_events (1, 1)%N ++ [Nv_process (input_texture e2)]
         ++ composite_events fx (fx_get_color e2) alpha (1, 1)%N
    /\ _dirty (self w2) = false.
Proof.
  intros Hreq Hfx Hc Hm Ht Hw Hh Hb Hp.
  assert (Hskip : forall w, _provider_ready (self w) = true -> skip_filter e2 w = false).
  { intros w Hr. unfold skip_filter. rewrite Hr. cbn.
    apply N.eqb_neq in Hw, Hh. rewrite Hw, Hh.
    destruct Ht as [-> | ->]; cbn; by rewrite ?orb_true_r. }
  eexists _, _, _. split.
  { unfold constructor, load, update. fold (requested e0 stored).
    unfold switch_provider, dequeue_provider_task, threadpool_push.
    unfold_M. cbn. rewrite Hfx, Hreq. cbn. reflexivity. }
  split.
  { unfold video_render. unfold_M. cbn. reflexivity. }
  split.
  { cbn -[task_switch_provider_locked]. rewrite decide_True by done.
    unfold task_switch_provider_begin. unfold_M.
    cbn -[task_switch_provider_locked]. rewrite decide_True by done.
    rewrite task_switch_provider_locked_spec. cbn.
    rewrite load_current_spec. cbn. rewrite Hc, Hm. cbn. reflexivity. }
  split; [reflexivity|]. split; [reflexivity|].
  split.
  { unfold video_render, refresh, capture, process, nvvfxgs_process.
    unfold_M. cbn. rewrite Hskip by reflexivity. cbn. rewrite Hb. cbn.
    rewrite Hp. cbn. rewrite composite_spec. cbn. reflexivity. }
  split; [|reflexivity].
  unfold new_events, capture_events. cbn. reflexivity.
Qed.

Lemma first_composite_witness :
  exists w0 w1 w2,
    constructor Example.fine (Some (Example.use AUTOMATIC 1))
      (blank (Example.use AUTOMATIC 1)) = Ok tt w0
    /\ video_render Example.fine w0 = Ok tt (observed w0 [Skip_video_filter])
    /\ steps [Worker_begin 0; Worker_finish Example.fine 0] w0 = Some w1
    /\ video_render Example.fine w1 = Ok tt w2
    /\ _dirty (self w2) = false.
Proof.
  destruct (first_composite Example.fine (Example.use AUTOMATIC 1) Example.fine
              Example.fine Example.fx 8)
    as (w0 & w1 & w2 & H1 & H2 & H3 & _ & _ & H6 & _ & H8);
    try reflexivity; try discriminate; [left; reflexivity|].
  exists w0, w1, w2. repeat split; assumption.
Defined.

(** ** A request that replaces a queued task *)

(** The locked part of a task that has nothing to unload or load. *)
Lemma task_switch_provider_locked_other e spd w :
  spd <> NVIDIA_GREENSCREEN ->
  _provider (self w) <> NVIDIA_GREENSCREEN ->
  is_enumerator spd = true ->
  is_enumerator (_provider (self w)) = true ->
  task_switch_provider_locked e spd w =
    Ok tt {| self := with_provider_ready true (self w);
             threadpool := threadpool w; settings := settings w;
             trace := trace w ++ [LogInfo_switched spd (_provider (self w))] |}.
Proof.
  intros Hs Hp E1 E2.
  rewrite task_switch_provider_locked_spec, unload_previous_spec.
  destruct spd; try done; rewrite load_current_spec;
    destruct (_provider (self w)) eqn:E; try done; cbn; by rewrite ?E.
Qed.

(** X16. The task remembers the kind that was current when it was spawned, not
    the kind whose adapter is loaded. When a second request replaces a task
    still in the queue, the first task is dequeued and the new one is
    spawned with the kind of the first request. If neither request was for
    NVIDIA, the new task makes no call to the adapter: an adapter loaded
    before the two requests is still loaded when the task has ended, and the
    provider is ready. *)
Theorem replaced_task_keeps_adapter w p1 p2 w1 w2 :
  p1 <> _provider (self w) ->
  p2 <> p1 ->
  switch_provider p1 w = Ok tt w1 ->
  switch_provider p2 w1 = Ok tt w2 ->
  exists id1 id2,
    _provider_task (self w1) = Some id1
    /\ threadpool w2 !! id1
       = Some {| spd_provider := _provider (self w); status := Dequeued |}
    /\ _provider_task (self w2) = Some id2
    /\ threadpool w2 !! id2 = Some {| spd_provider := p1; status := Queued |}
    /\ _nvidia_fx (self w2) = _nvidia_fx (self w)
    /\ (p1 <> NVIDIA_GREENSCREEN -> p2 <> NVIDIA_GREENSCREEN ->
        forall e, exists w3,
          steps [Worker_begin id2; Worker_finish e id2] w2 = Some w3
          /\ _nvidia_fx (self w3) = _nvidia_fx (self w)
          /\ _provider_ready (self w3) = true
          /\ _provider (self w3) = p2
          /\ occurrences is_adapter_call (new_events w2 w3) = 0).
Proof.
  intros Hne1 Hne2 H1.
  destruct (switch_provider_named _ _ _ Hne1 H1) as [En0 En1].
  revert H1. rewrite switch_provider_spec by done.
  destruct (dequeue_provider_task _) as [[] v1| | | |] eqn:Hd1; try done.
  intros [= <-].
  apply dequeue_provider_task_keeps in Hd1 as Hk1. destruct Hk1 as (_ & Hp1 & _).
  cbn in Hp1.
  assert (Hfx1 : _nvidia_fx (self v1) = _nvidia_fx (self w)).
  { revert Hd1. rewrite dequeue_provider_task_spec. cbn.
    repeat case_match; try done; by intros [= <-]. }
  intros H2.
  assert (En2 : is_enumerator p2 = true).
  { eapply (switch_provider_named (spawned p1 v1) p2); [|exact H2].
    cbn. congruence. }
  revert H2. rewrite switch_provider_spec by (cbn; congruence).
  rewrite dequeue_provider_task_spec. cbn.
  rewrite lookup_app_r, Nat.sub_diag by lia. cbn.
  intros [= <-].
  set (P := threadpool v1) in *.
  set (T1 := {| spd_provider := _provider (self v1); status := Queued |}) in *.
  set (Q := <[length P := set_status Dequeued T1]> (P ++ [T1])) in *.
  assert (Hlen : length Q = S (length P)).
  { unfold Q. rewrite length_insert, length_app. cbn. lia. }
  assert (HQ : Q !! length P
               = Some {| spd_provider := _provider (self w); status := Dequeued |}).
  { unfold Q. rewrite list_lookup_insert_eq by (rewrite length_app; cbn; lia).
    unfold T1, set_status. cbn. by rewrite Hp1. }
  clearbody Q.
  exists (length P), (S (length P)).
  unfold spawned at 1. cbn [self threadpool _provider_task with_provider_task].
  split; [done|].
  unfold spawned, released. cbn [self threadpool settings trace _provider_task
    with_provider_task with_provider _provider _nvidia_fx observed].
  split; [by rewrite lookup_app_l by lia|].
  split; [by rewrite Hlen|].
  assert (HT2 : (Q ++ [{| spd_provider := p1; status := Queued |}]) !! S (length P)
                = Some {| spd_provider := p1; status := Queued |}).
  { rewrite lookup_app_r by lia. by rewrite Hlen, Nat.sub_diag. }
  split; [exact HT2|]. split; [exact Hfx1|].
  intros Hn1 Hn2 e. unfold steps, step.
  cbn [threadpool]. rewrite HT2. cbn [status]. rewrite decide_True by done.
  unfold task_switch_provider_begin, set_provider_ready, modify_threadpool,
    modify_self, modify, mbind, M_bind, bind, outcome.
  cbn [threadpool self settings trace].
  rewrite list_lookup_insert_eq by (rewrite length_app, Hlen; cbn; lia).
  cbn [status set_status spd_provider]. rewrite decide_True by done.
  rewrite task_switch_provider_locked_other by (cbn; done).
  cbn [fmap option_fmap option_map task_completed].
  eexists. split; [reflexivity|].
  cbn [self threadpool settings trace with_provider_ready _provider_ready
         _provider _nvidia_fx].
  repeat split; try done.
  unfold new_events, task_completed. cbn [trace]. by rewrite drop_app_length.
Qed.

Lemma replaced_task_keeps_adapter_witness :
  switch_provider INVALID Example.loaded = Ok tt Example.away
  /\ switch_provider AUTOMATIC Example.away = Ok tt Example.away_twice
  /\ exists w3,
       steps [Worker_begin 2; Worker_finish Example.fine 2] Example.away_twice
       = Some w3
       /\ _nvidia_fx (self w3) = _nvidia_fx (self Example.loaded)
       /\ _provider_ready (self w3) = true.
Proof.
  split; [reflexivity|]. split; [reflexivity|].
  destruct (replaced_task_keeps_adapter Example.loaded INVALID AUTOMATIC
              Example.away Example.away_twice)
    as (id1 & id2 & _ & _ & H2 & _ & _ & H);
    [discriminate|discriminate|reflexivity|reflexivity|].
  vm_compute in H2. injection H2 as <-.
  destruct (H ltac:(discriminate) ltac:(discriminate) Example.fine)
    as (w3 & Hs & Hfx & Hr & _).
  exists w3. split; [exact Hs|]. split; [exact Hfx|exact Hr].
Defined.
